(** * Soneium swap bot: a shallow embedding of the swap sequencer

    The repository holds two variants of one script: [bot.js], which quotes
    gas from the network ("dynamic gas"), and an earlier copy with a static
    gas price.  Both are embedded here: [Dynamic] follows [bot.js], [Static]
    follows the earlier file.  Asynchronous calls are awaited one after the
    other in the source, so the embedding is sequential: a computation reads
    the history of what happened so far and returns a result together with
    the events it added. *)

From Stdlib Require Import ZArith QArith Qabs Qround List String Ascii Bool Lia Lqa.
From Stdlib Require Import DecimalString.
Import ListNotations.

Local Open Scope string_scope.
Local Open Scope list_scope.
Local Open Scope Z_scope.

(* ===================================================================== *)
(** ** JavaScript values and library helpers *)
(* ===================================================================== *)

Module Js.

(** The outcome of an awaited call: a value, or an [Error] carrying its
    [message]. *)
Inductive Res (A : Type) : Type :=
| Ok (a : A)
| Throw (message : string).
Arguments Ok {A} a.
Arguments Throw {A} message.

Definition is_ok {A} (r : Res A) : bool :=
  match r with Ok _ => true | Throw _ => false end.

(** [s.split(sep)] for a one-character separator. *)
Fixpoint split (sep : ascii) (s : string) : list string :=
  match s with
  | EmptyString => [EmptyString]
  | String c rest =>
      if Ascii.eqb c sep then EmptyString :: split sep rest
      else match split sep rest with
           | x :: xs => String c x :: xs
           | [] => [String c EmptyString]
           end
  end.

(** [error.message.split(';')[0]] *)
Definition before_semicolon (message : string) : string :=
  match split ";" message with
  | x :: _ => x
  | [] => EmptyString
  end.

(** The white space that [String.prototype.trim] strips, one byte long:
    TAB, LF, VT, FF, CR and the space. *)
Definition is_space (c : ascii) : bool :=
  let n := nat_of_ascii c in
  orb (Nat.eqb n 32) (andb (Nat.leb 9 n) (Nat.leb n 13)).

(** Two bytes long in UTF-8: U+00A0. *)
Definition is_space2 (c1 c2 : ascii) : bool :=
  andb (Nat.eqb (nat_of_ascii c1) 194) (Nat.eqb (nat_of_ascii c2) 160).

(** Three bytes long in UTF-8: U+1680, U+2000 to U+200A, U+2028, U+2029,
    U+202F, U+205F, U+3000 and U+FEFF. *)
Definition is_space3 (c1 c2 c3 : ascii) : bool :=
  let b1 := nat_of_ascii c1 in
  let b2 := nat_of_ascii c2 in
  let b3 := nat_of_ascii c3 in
  orb (andb (Nat.eqb b1 225) (andb (Nat.eqb b2 154) (Nat.eqb b3 128)))
 (orb (andb (Nat.eqb b1 226)
            (orb (andb (Nat.eqb b2 128)
                       (orb (andb (Nat.leb 128 b3) (Nat.leb b3 138))
                       (orb (Nat.eqb b3 168) (orb (Nat.eqb b3 169) (Nat.eqb b3 175)))))
                 (andb (Nat.eqb b2 129) (Nat.eqb b3 159))))
 (orb (andb (Nat.eqb b1 227) (andb (Nat.eqb b2 128) (Nat.eqb b3 128)))
      (andb (Nat.eqb b1 239) (andb (Nat.eqb b2 187) (Nat.eqb b3 191))))).

(** White space stripped from the head of a string held as UTF-8 bytes. *)
Fixpoint trim_start (s : string) : string :=
  match s with
  | EmptyString => EmptyString
  | String c1 r1 =>
      if is_space c1 then trim_start r1
      else match r1 with
           | String c2 r2 =>
               if is_space2 c1 c2 then trim_start r2
               else match r2 with
                    | String c3 r3 =>
                        if is_space3 c1 c2 c3 then trim_start r3 else s
                    | EmptyString => s
                    end
           | EmptyString => s
           end
  end.

(** The same on the reversed bytes: the characters come last byte first. *)
Fixpoint trim_start_reversed (l : list ascii) : list ascii :=
  match l with
  | [] => []
  | c1 :: r1 =>
      if is_space c1 then trim_start_reversed r1
      else match r1 with
           | c2 :: r2 =>
               if is_space2 c2 c1 then trim_start_reversed r2
               else match r2 with
                    | c3 :: r3 =>
                        if is_space3 c3 c2 c1 then trim_start_reversed r3 else l
                    | [] => l
                    end
           | [] => l
           end
  end.

Definition trim_end (s : string) : string :=
  string_of_list_ascii
    (List.rev (trim_start_reversed (List.rev (list_ascii_of_string s)))).

(** [key.trim()], on a string held as its UTF-8 bytes. *)
Definition trim (s : string) : string := trim_end (trim_start s).

(** *** Double-precision arithmetic *)

(** Whether [2^e <= n/d]. *)
Definition pow2_le (e n : Z) (d : positive) : bool :=
  if 0 <=? e then 2 ^ e * Zpos d <=? n else Zpos d <=? n * 2 ^ (- e).

(** The binary exponent of [n/d > 0]: the [e] with [2^e <= n/d < 2^(e+1)]. *)
Definition binade (n : Z) (d : positive) : Z :=
  let e0 := Z.log2 n - Z.log2 (Zpos d) in
  if pow2_le e0 n d then e0 else e0 - 1.

(** The integer nearest to [N/D] for [D > 0], the even one on a tie. *)
Definition round_half_even (N D : Z) : Z :=
  let q := N / D in
  match 2 * (N mod D) ?= D with
  | Lt => q
  | Gt => q + 1
  | Eq => if Z.even q then q else q + 1
  end.

(** The double nearest to [n/d > 0]: 53 significant bits, the exponent not
    below -1022 (overflow beyond the largest double is left out). *)
Definition round_double_pos (n : Z) (d : positive) : Q :=
  let e := Z.max (binade n d) (-1022) - 52 in
  if 0 <=? e then inject_Z (round_half_even n (Zpos d * 2 ^ e) * 2 ^ e)
  else round_half_even (n * 2 ^ (- e)) (Zpos d) # Z.to_pos (2 ^ (- e)).

(** Rounding to the nearest double, ties to even. *)
Definition fl (x : Q) : Q :=
  let q := Qred x in
  match Qnum q with
  | Z0 => 0
  | Zpos _ => round_double_pos (Qnum q) (Qden q)
  | Zneg _ => - round_double_pos (- Qnum q) (Qden q)
  end.

(** [a * b] and [a / b] on doubles. *)
Definition fmul (a b : Q) : Q := fl (a * b).
Definition fdiv (a b : Q) : Q := fl (a / b).

(** A JavaScript number as far as the summary needs it: the quotient of two
    counters is a finite value, an infinity, or NaN.  A finite value is the
    exact value of the double. *)
Inductive Number :=
| NaN
| Infinity (negative : bool)
| Finite (q : Q).

(** [a / b] on integer-valued numbers below 2^53. *)
Definition div (a b : Z) : Number :=
  if b =? 0 then
    if a =? 0 then NaN else Infinity (a <? 0)
  else Finite (fdiv (inject_Z a) (inject_Z b)).

(** [x * k] for an integer [k > 0]. *)
Definition mul (x : Number) (k : Z) : Number :=
  match x with
  | NaN => NaN
  | Infinity s => Infinity s
  | Finite q => Finite (fmul q (inject_Z k))
  end.

Definition string_of_Z (z : Z) : string :=
  NilZero.string_of_int (Z.to_int z).

Definition two_digits (n : Z) : string :=
  if n <? 10 then String "0" (string_of_Z n) else string_of_Z n.

(** [x.toFixed(2)]: the multiple of 1/100 nearest to the exact value of
    the double, the larger on a tie. *)
Definition toFixed2 (x : Number) : string :=
  match x with
  | NaN => "NaN"
  | Infinity false => "Infinity"
  | Infinity true => "-Infinity"
  | Finite q =>
      let a := Qabs q in
      let n := Qfloor (a * inject_Z 100 + (1 # 2))%Q in
      ((if Qle_bool 0 q then "" else "-")
         ++ string_of_Z (n / 100) ++ "." ++ two_digits (n mod 100))%string
  end.

End Js.
Export Js.

(** The part of the [ethers] library the script computes with. [BigNumber]
    is an arbitrary-precision integer: [add], [mul] are exact, [div]
    truncates, [gte] compares. *)
Module Ethers.

Definition BigNumber := Z.

Definition bn_add (a b : BigNumber) : BigNumber := a + b.
Definition bn_mul (a b : BigNumber) : BigNumber := a * b.
Definition bn_div (a b : BigNumber) : BigNumber := Z.quot a b.
Definition bn_gte (a b : BigNumber) : bool := b <=? a.

Definition MaxUint256 : BigNumber := 2 ^ 256 - 1.

Definition is_digit (c : ascii) : bool :=
  andb (Nat.leb 48 (nat_of_ascii c)) (Nat.leb (nat_of_ascii c) 57).

Definition is_decimal_char (c : ascii) : bool :=
  orb (is_digit c) (Ascii.eqb c ".").

Fixpoint all_chars (p : ascii -> bool) (s : string) : bool :=
  match s with
  | EmptyString => true
  | String c rest => andb (p c) (all_chars p rest)
  end.

Fixpoint digits_value (s : string) (acc : Z) : Z :=
  match s with
  | EmptyString => acc
  | String c rest => digits_value rest (10 * acc + (Z.of_nat (nat_of_ascii c) - 48))
  end.

Fixpoint strip_trailing_zeros (s : string) : string :=
  match s with
  | EmptyString => EmptyString
  | String c rest =>
      match strip_trailing_zeros rest with
      | EmptyString => if Ascii.eqb c "0" then EmptyString else String c EmptyString
      | rest' => String c rest'
      end
  end.

(** The magnitude of a decimal literal in units of [10^-decimals]. *)
Definition parse_magnitude (s : string) (decimals : nat) : Res BigNumber :=
  if orb (negb (all_chars is_decimal_char s)) (String.eqb s "") then
    Throw "invalid decimal value"
  else if String.eqb s "." then Throw "missing value"
  else
    match split "." s with
    | [] => Throw "invalid decimal value"
    | _ :: _ :: _ :: _ => Throw "too many decimal points"
    | whole :: more =>
        let fraction := strip_trailing_zeros (match more with f :: _ => f | [] => "" end) in
        if Nat.ltb decimals (String.length fraction) then
          Throw "fractional component exceeds decimals"
        else
          Ok (digits_value whole 0 * 10 ^ Z.of_nat decimals
              + digits_value fraction 0
                * 10 ^ Z.of_nat (decimals - String.length fraction))
    end.

(** [ethers.utils.parseUnits(value, decimals)]: fixed-point reading of a
    decimal string. *)
Definition parseUnits (value : string) (decimals : nat) : Res BigNumber :=
  match value with
  | String "-" rest =>
      match parse_magnitude rest decimals with
      | Ok m => Ok (- m)
      | Throw e => Throw e
      end
  | _ => parse_magnitude value decimals
  end.

Definition gwei : nat := 9.
Definition parseEther (value : string) : Res BigNumber := parseUnits value 18.

(** *** Keccak-256, as [ethers.utils.keccak256] computes it *)

Definition mask64 : Z := 2 ^ 64 - 1.

(** A 64-bit lane rotated left by [n] bits. *)
Definition rotl (x n : Z) : Z :=
  Z.lor (Z.land (Z.shiftl x n) mask64) (Z.shiftr x (64 - n)).

(** The state: 25 lanes, the lane of column [x] and row [y] at [x + 5 y]. *)
Definition lane (st : list Z) (x y : Z) : Z :=
  nth (Z.to_nat (x mod 5 + 5 * (y mod 5))) st 0.

Definition lanes (g : Z -> Z -> Z) : list Z :=
  map (fun i => g (Z.of_nat i mod 5) (Z.of_nat i / 5)) (seq 0 25).

Definition rotation_offsets : list Z :=
  [ 0;  1; 62; 28; 27;
   36; 44;  6; 55; 20;
    3; 10; 43; 25; 39;
   41; 45; 15; 21;  8;
   18;  2; 61; 56; 14].

Definition round_constants : list Z :=
  [0x0000000000000001; 0x0000000000008082; 0x800000000000808A;
   0x8000000080008000; 0x000000000000808B; 0x0000000080000001;
   0x8000000080008081; 0x8000000000008009; 0x000000000000008A;
   0x0000000000000088; 0x0000000080008009; 0x000000008000000A;
   0x000000008000808B; 0x800000000000008B; 0x8000000000008089;
   0x8000000000008003; 0x8000000000008002; 0x8000000000000080;
   0x000000000000800A; 0x800000008000000A; 0x8000000080008081;
   0x8000000000008080; 0x0000000080000001; 0x8000000080008008].

Definition theta (st : list Z) : list Z :=
  let C x := fold_left Z.lxor (map (lane st x) [1; 2; 3; 4]) (lane st x 0) in
  lanes (fun x y => Z.lxor (lane st x y)
                           (Z.lxor (C (x + 4)) (rotl (C (x + 1)) 1))).

(** Rho and pi: the lane of [(x, y)], rotated, goes to [(y, 2x + 3y)]. *)
Definition rho_pi (st : list Z) : list Z :=
  lanes (fun X Y => let x := (X + 3 * Y) mod 5 in
                    rotl (lane st x X) (lane rotation_offsets x X)).

Definition chi (st : list Z) : list Z :=
  lanes (fun x y => Z.lxor (lane st x y)
                           (Z.land (Z.lxor (lane st (x + 1) y) mask64)
                                   (lane st (x + 2) y))).

Definition iota (rc : Z) (st : list Z) : list Z :=
  match st with
  | a :: rest => Z.lxor a rc :: rest
  | [] => []
  end.

Definition keccak_f (st : list Z) : list Z :=
  fold_left (fun s rc => iota rc (chi (rho_pi (theta s)))) round_constants st.

(** Eight bytes as a lane, the first byte the lowest. *)
Fixpoint lane_of_bytes (bytes : list Z) : Z :=
  match bytes with
  | [] => 0
  | b :: rest => b + 256 * lane_of_bytes rest
  end.

Fixpoint bytes_of_lane (n : nat) (l : Z) : list Z :=
  match n with
  | O => []
  | S n' => l mod 256 :: bytes_of_lane n' (l / 256)
  end.

Fixpoint chunks (n : nat) (count : nat) (bytes : list Z) : list (list Z) :=
  match count with
  | O => []
  | S count' => firstn n bytes :: chunks n count' (skipn n bytes)
  end.

(** The rate of Keccak-256 is 136 bytes, or 17 lanes. *)
Definition absorb (st : list Z) (block : list Z) : list Z :=
  let words := map lane_of_bytes (chunks 8 17 block) ++ repeat 0 8 in
  keccak_f (map (fun p => Z.lxor (fst p) (snd p)) (combine st words)).

(** Padding: a 1 bit, zeros, and a 1 bit that closes the block. *)
Definition pad (bytes : list Z) : list Z :=
  let fill := (135 - List.length bytes mod 136)%nat in
  match fill with
  | O => bytes ++ [129]
  | S k => bytes ++ [1] ++ repeat 0 k ++ [128]
  end.

Definition keccak256 (bytes : list Z) : list Z :=
  let padded := pad bytes in
  let blocks := chunks 136 (List.length padded / 136) padded in
  let st := fold_left absorb blocks (repeat 0 25) in
  flat_map (bytes_of_lane 8) (firstn 4 st).

(** *** Addresses *)

Definition in_range (lo hi : nat) (c : ascii) : bool :=
  let n := nat_of_ascii c in andb (Nat.leb lo n) (Nat.leb n hi).

Definition is_lower_hex_letter (c : ascii) : bool := in_range 97 102 c.
Definition is_upper_hex_letter (c : ascii) : bool := in_range 65 70 c.
Definition is_hex (c : ascii) : bool :=
  orb (is_digit c) (orb (is_lower_hex_letter c) (is_upper_hex_letter c)).

Definition to_lower (c : ascii) : ascii :=
  if in_range 65 90 c then ascii_of_nat (nat_of_ascii c + 32) else c.

Definition to_upper (c : ascii) : ascii :=
  if in_range 97 122 c then ascii_of_nat (nat_of_ascii c - 32) else c.

(** The hexadecimal digits of a hash, two for each byte. *)
Definition nibbles (bytes : list Z) : list Z :=
  flat_map (fun b => [b / 16; b mod 16]) bytes.

(** [getChecksumAddress]: the digits in lower case are hashed, and a letter
    is put in upper case where the hexadecimal digit of the hash at its
    place is 8 or more. *)
Definition getChecksumAddress (digits : string) : string :=
  let chars := map to_lower (list_ascii_of_string digits) in
  let hashed := keccak256 (map (fun c => Z.of_nat (nat_of_ascii c)) chars) in
  string_of_list_ascii
    (map (fun p => if 8 <=? snd p then to_upper (fst p) else fst p)
         (combine chars (nibbles hashed))).

(** An address that [ethers.utils.getAddress] accepts: [0x] and forty
    hexadecimal digits, whose letters are all in one case or in the case
    of the checksum. *)
Definition isAddress (s : string) : bool :=
  match s with
  | String "0" (String "x" digits) =>
      let chars := list_ascii_of_string digits in
      andb (Nat.eqb (List.length chars) 40)
        (andb (forallb is_hex chars)
              (orb (negb (andb (existsb is_upper_hex_letter chars)
                               (existsb is_lower_hex_letter chars)))
                   (String.eqb (getChecksumAddress digits) digits)))
  | _ => false
  end.

(** A value that the ABI coder encodes as a [uint256]. *)
Definition uint256 (v : Z) : Prop := 0 <= v < 2 ^ 256.

End Ethers.
Export Ethers.

(* ===================================================================== *)
(** ** Transactions, the observable trace and the network *)
(* ===================================================================== *)

Module Runtime.

Definition Address := string.
Definition Hash := string.

(** Call data before ABI encoding: the function of the interface and its
    arguments.  [exactInputSingle] takes the eight-field tuple. *)
Inductive CallData :=
| ExactInputSingle (tokenIn tokenOut poolFee recipient : Address)
                   (deadline amountIn limit amountOutMinimum : Z)
| Approve (spender : Address) (amount : Z)
| Withdraw (wad : Z).

(** A transaction request object. The gas fields and the nonce are absent
    until the script sets them.  Amounts are [BigNumber]s; nonces, counters
    and times are JavaScript numbers holding integers far below 2^53, where
    their arithmetic is exact, and are kept as integers. *)
Record TxRequest := mkTx {
  chainId : Z;
  to : Address;
  value : Z;
  data : CallData;
  type : Z;
  nonce : option Z;
  gasLimit : option Z;
  maxFeePerGas : option Z;
  maxPriorityFeePerGas : option Z
}.

Definition set_nonce (tx : TxRequest) (n : Z) : TxRequest :=
  mkTx (chainId tx) (to tx) (value tx) (data tx) (type tx)
       (Some n) (gasLimit tx) (maxFeePerGas tx) (maxPriorityFeePerGas tx).

Definition set_gasLimit (tx : TxRequest) (g : Z) : TxRequest :=
  mkTx (chainId tx) (to tx) (value tx) (data tx) (type tx)
       (nonce tx) (Some g) (maxFeePerGas tx) (maxPriorityFeePerGas tx).

Definition set_fees (tx : TxRequest) (maxFee priorityFee : Z) : TxRequest :=
  mkTx (chainId tx) (to tx) (value tx) (data tx) (type tx)
       (nonce tx) (gasLimit tx) (Some maxFee) (Some priorityFee).

Record GasQuote := mkQuote {
  quoteMaxFeePerGas : Z;
  quoteMaxPriorityFeePerGas : Z
}.

Record Balances := mkBalances {
  ethBalance : Z;
  usdcBalance : Z;
  wethBalance : Z
}.

Record Wallet := mkWallet { address : Address }.

(** Log lines, kept as the values they are rendered from. *)
Inductive Level := Info | Success | Error | Warning | Console.

Inductive Msg :=
| MText (s : string)
| MDivider
| MWalletHeader (addr : Address) (number : Z)
| MDynamicGasPrices (baseFee priorityFee maxFee : Z)
| MGasPriceFailed (message : string)
| MFallbackGasPrice (price : Z)
| MGasEstimated (estimate buffered : Z)
| MFallbackGasLimit (limit : Z)
| MBalanceCheck (balance amount gasCost totalCost : Z)
| MBalanceLine (balance : Z)
| MTotalCostLine (totalCost : Z)
| MGasCostLine (gasCost : Z)
| MCurrentBalances (eth weth usdc : Z)
| MStep (n : Z) (amount : option Z)
| MStepDone (n : Z) (hash : Hash)
| MCheckingBalancesAfter (n : Z)
| MWethBalance (weth : Z)
| MStartingSwaps (walletNumber : Z)
| MStartingSwap (number total : Z)
| MSequentialSwapCompleted (number : Z)
| MTransactionDetails (details : option (Z * Z * Z * Z))
| MTransactionSent (hash : Hash)
| MSwapConfirmed (number : Z)
| MSwapFailed (number : Z)
| MWaiting (seconds : Z)
| MErrorInSwap (number : Z) (message : string)
| MLoaded (wallets : Z)
| MConfigured (swaps : Z)
| MWalletSummary (number : Z)
| MSuccessfulSwaps (n : Z)
| MFailedSwaps (n : Z)
| MTotalSuccessful (n : Z)
| MTotalFailed (n : Z)
| MSuccessRate (percent : string)
| MFatal (message : string).

(** What the script does to the outside world, in order, each call with
    the answer it got. *)
Inductive Event :=
| EvLog (level : Level) (msg : Msg)
| EvGetFeeData (answer : Res (option Z))
| EvEstimateGas (tx : TxRequest) (answer : Res Z)
| EvGetBalance (owner : Address) (answer : Res Z)
| EvBalanceOf (token owner : Address) (answer : Res Z)
| EvGetTransactionCount (owner : Address) (answer : Res Z)
| EvSendTransaction (from : Address) (tx : TxRequest) (answer : Res Hash)
| EvWait (hash : Hash) (answer : Res Z)
| EvSleep (ms : Z)
| EvRandom (r : Q)
| EvNow (ms : Z)
| EvExit (code : Z).

Definition History := list Event.

(** The [config] object of a script. *)
Record Config := mkConfig {
  RPC_URL : string;
  CHAIN_ID : Z;
  QUICKSWAP_ROUTER : Address;
  TOKEN_IN : Address;
  TOKEN_OUT : Address;
  POOL_FEE : Address;
  DEFAULT_AMOUNT : string;
  GAS_PRICE_GWEI : string
}.

(** The parsed [config.json]. *)
Record UserConfig := mkUserConfig {
  numberOfSwaps : Z;
  amountPerSwap : option string;
  sequentialSwap : bool
}.

(** The chain behind the RPC endpoint, the clock and the random source.
    Every answer may depend on all that happened before.  [getFeeData]
    answers with the last base fee, if the chain has one; [wallet_of_key]
    is [new ethers.Wallet(key, provider)]; [read_config] and [read_keys]
    are the two files as [main] reads them. *)
Record Env := mkEnv {
  rpc_getFeeData : History -> Res (option Z);
  rpc_estimateGas : History -> TxRequest -> Res Z;
  rpc_getBalance : History -> Address -> Res Z;
  rpc_balanceOf : History -> Address -> Address -> Res Z;
  rpc_getTransactionCount : History -> Address -> Res Z;
  rpc_sendTransaction : History -> Address -> TxRequest -> Res Hash;
  rpc_wait : History -> Hash -> Res Z;
  math_random : History -> Q;
  date_now : History -> Z;
  wallet_of_key : string -> Res Address;
  read_config : Res UserConfig;
  read_keys : Res string
}.

(** [Math.random()] answers a double in [0, 1): the largest is
    [1 - 2^-53]. *)
Definition random_in_range (env : Env) : Prop :=
  forall h, (0 <= math_random env h)%Q
            /\ (math_random env h <= 1 - (1 # 9007199254740992))%Q.

(** A network that answers every call of a sequence: the balances are
    read, a token balance being a [uint256], the transaction count is
    read, every transaction is accepted and mined with status 1, and the
    clock is past 1970. *)
Definition obliging (env : Env) : Prop :=
  (forall h owner, exists v, rpc_getBalance env h owner = Ok v)
  /\ (forall h token owner,
         exists v, rpc_balanceOf env h token owner = Ok v /\ uint256 v)
  /\ (forall h owner,
         exists n, rpc_getTransactionCount env h owner = Ok n /\ 0 <= n)
  /\ (forall h from tx, exists hash, rpc_sendTransaction env h from tx = Ok hash)
  /\ (forall h hash, rpc_wait env h hash = Ok 1)
  /\ (forall h, 0 <= date_now env h).

(** The arguments of a sequence whose call data
    [iface.encodeFunctionData] encodes: the recipient is an address and the
    amount a [uint256]. *)
Definition encodable (recipient : Address) (amount : Z) : Prop :=
  isAddress recipient = true /\ uint256 amount.

(** A computation: given the history, a result and the events added. *)
Definition M (A : Type) : Type := History -> Res A * list Event.

Definition ret {A} (a : A) : M A := fun _ => (Ok a, []).

Definition throw {A} (message : string) : M A := fun _ => (Throw message, []).

Definition bind {A B} (m : M A) (f : A -> M B) : M B :=
  fun h =>
    match m h with
    | (Ok a, ev) => let (r, ev') := f a (h ++ ev) in (r, ev ++ ev')
    | (Throw e, ev) => (Throw e, ev)
    end.

(** [try { m } catch (error) { handler error }] *)
Definition try_catch {A} (m : M A) (handler : string -> M A) : M A :=
  fun h =>
    match m h with
    | (Ok a, ev) => (Ok a, ev)
    | (Throw e, ev) => let (r, ev') := handler e (h ++ ev) in (r, ev ++ ev')
    end.

Definition lift {A} (r : Res A) : M A := fun _ => (r, []).

Definition emit (e : Event) : M unit := fun _ => (Ok tt, [e]).

Definition log (level : Level) (msg : Msg) : M unit := emit (EvLog level msg).

(** A call to the outside: the answer is recorded with the call. *)
Definition call {A} (answer : History -> Res A) (event : Res A -> Event) : M A :=
  fun h => (answer h, [event (answer h)]).

Definition ask {A} (answer : History -> A) (event : A -> Event) : M A :=
  fun h => (Ok (answer h), [event (answer h)]).

(** [await new Promise(resolve => setTimeout(resolve, ms))] *)
Definition sleep (ms : Z) : M unit := emit (EvSleep ms).

Definition result {A} (m : M A) (h : History) : Res A := fst (m h).
Definition events {A} (m : M A) (h : History) : list Event := snd (m h).

Declare Scope action_scope.
Delimit Scope action_scope with action.
Notation "x <- c1 ;; c2" := (bind c1 (fun x => c2))
  (at level 100, c1 at next level, right associativity) : action_scope.
Notation "c1 ;; c2" := (bind c1 (fun _ => c2))
  (at level 100, right associativity) : action_scope.

Section Calls.
Variable env : Env.

Definition getFeeData : M (option Z) :=
  call (rpc_getFeeData env) EvGetFeeData.

Definition estimateGas (tx : TxRequest) : M Z :=
  call (fun h => rpc_estimateGas env h tx) (EvEstimateGas tx).

Definition getBalance (w : Wallet) : M Z :=
  call (fun h => rpc_getBalance env h (address w)) (EvGetBalance (address w)).

Definition balanceOf (token : Address) (w : Wallet) : M Z :=
  call (fun h => rpc_balanceOf env h token (address w))
       (EvBalanceOf token (address w)).

Definition getTransactionCount (w : Wallet) : M Z :=
  call (fun h => rpc_getTransactionCount env h (address w))
       (EvGetTransactionCount (address w)).

(** [wallet.sendTransaction(tx)]: the answer is the hash of the
    transaction response. *)
Definition sendTransaction (w : Wallet) (tx : TxRequest) : M Hash :=
  call (fun h => rpc_sendTransaction env h (address w) tx)
       (EvSendTransaction (address w) tx).

(** [response.wait()]: the answer is the status of the receipt. *)
Definition wait (hash : Hash) : M Z :=
  call (fun h => rpc_wait env h hash) (EvWait hash).

Definition random : M Q := ask (math_random env) EvRandom.

Definition now : M Z := ask (date_now env) EvNow.

(** [Math.floor(Date.now() / 1000) + 3600] *)
Definition deadline : M Z :=
  (t <- now ;; ret (t / 1000 + 3600))%action.

End Calls.

End Runtime.
Export Runtime.
Local Open Scope action_scope.

(* ===================================================================== *)
(** ** Code shared by the two scripts *)
(* ===================================================================== *)

Module Common.

Record Counters := mkCounters {
  successCount : Z;
  failCount : Z
}.

(** The attempts a pair of counters accounts for. *)
Definition total (c : Counters) : Z := successCount c + failCount c.

(** [c'] is [c] after [successCount++] or after [failCount++]. *)
Definition countsOne (c c' : Counters) : Prop :=
  c' = mkCounters (successCount c + 1) (failCount c)
  \/ c' = mkCounters (successCount c) (failCount c + 1).

Definition divider : M unit := log Console MDivider.

Section Script.
Variable env : Env.
Variable config : Config.

(** The two swap builders and the "Transaction details" line differ
    between the scripts. *)
Variable createSwap : Wallet -> Z -> Address -> M TxRequest.
Variable createSequentialSwap : Wallet -> Z -> Address -> M TxRequest.
Variable logTransactionDetails : TxRequest -> M unit.

Definition getWETHBalance (wallet : Wallet) : M Z :=
  balanceOf env (TOKEN_IN config) wallet.

Definition checkBalances (wallet : Wallet) : M Balances :=
  ethBalance <- getBalance env wallet ;;
  usdcBalance <- balanceOf env (TOKEN_OUT config) wallet ;;
  wethBalance <- getWETHBalance wallet ;;
  log Console (MCurrentBalances ethBalance wethBalance usdcBalance) ;;
  ret (mkBalances ethBalance usdcBalance wethBalance).

(** [userConfig.amountPerSwap || config.DEFAULT_AMOUNT] *)
Definition amountOrDefault (userConfig : UserConfig) : string :=
  match amountPerSwap userConfig with
  | Some s => if String.eqb s "" then DEFAULT_AMOUNT config else s
  | None => DEFAULT_AMOUNT config
  end.

(** The try block of one loop iteration up to the update of a counter. *)
Definition swapAttempt (wallet : Wallet) (userConfig : UserConfig)
           (i : Z) (c : Counters) : M Counters :=
  amountInWei <- lift (parseEther (amountOrDefault userConfig)) ;;
  if sequentialSwap userConfig then
    _ <- createSequentialSwap wallet amountInWei (address wallet) ;;
    log Success (MSequentialSwapCompleted (i + 1)) ;;
    ret (mkCounters (successCount c + 1) (failCount c))
  else
    tx <- createSwap wallet amountInWei (address wallet) ;;
    n <- getTransactionCount env wallet ;;
    let tx := set_nonce tx n in
    logTransactionDetails tx ;;
    signedTx <- sendTransaction env wallet tx ;;
    log Info (MTransactionSent signedTx) ;;
    status <- wait env signedTx ;;
    if status =? 1 then
      log Success (MSwapConfirmed (i + 1)) ;;
      ret (mkCounters (successCount c + 1) (failCount c))
    else
      log Error (MSwapFailed (i + 1)) ;;
      ret (mkCounters (successCount c) (failCount c + 1)).

(** The end of the try block: the pause before the next transaction.
    The product and the quotient are those of doubles. *)
Definition randomDelay : M unit :=
  r <- random env ;;
  let delay := Qfloor (fmul r (inject_Z 10000)) + 5000 in
  log Info (MWaiting (Qfloor (fdiv (inject_Z delay) (inject_Z 1000)))) ;;
  sleep delay.

(** The events of that pause, for the number [r] drawn. *)
Definition pauseEvents (r : Q) : list Event :=
  let delay := Qfloor (fmul r (inject_Z 10000)) + 5000 in
  [EvRandom r;
   EvLog Info (MWaiting (Qfloor (fdiv (inject_Z delay) (inject_Z 1000))));
   EvSleep delay].

(** One iteration of the [for] loop.  Nothing after the counter update
    can throw, so the handler sees the counters of the loop entry. *)
Definition swapIteration (wallet : Wallet) (userConfig : UserConfig)
           (i : Z) (c : Counters) : M Counters :=
  divider ;;
  log Info (MStartingSwap (i + 1) (numberOfSwaps userConfig)) ;;
  try_catch
    (c' <- swapAttempt wallet userConfig i c ;;
     randomDelay ;;
     ret c')
    (fun message =>
       log Error (MErrorInSwap (i + 1) message) ;;
       ret (mkCounters (successCount c) (failCount c + 1))).

(** [for (let i = 0; i < userConfig.numberOfSwaps; i++)], with
    [remaining] the iterations still to run. *)
Fixpoint swapLoop (wallet : Wallet) (userConfig : UserConfig)
         (remaining : nat) (i : Z) (c : Counters) : M Counters :=
  match remaining with
  | O => ret c
  | S k =>
      c' <- swapIteration wallet userConfig i c ;;
      swapLoop wallet userConfig k (i + 1) c'
  end.

Definition processWallet (privateKey : string) (walletIndex : Z)
           (userConfig : UserConfig) : M Counters :=
  addr <- lift (wallet_of_key env privateKey) ;;
  let wallet := mkWallet addr in
  log Console (MWalletHeader (address wallet) (walletIndex + 1)) ;;
  log Info (MStartingSwaps (walletIndex + 1)) ;;
  swapLoop wallet userConfig (Z.to_nat (numberOfSwaps userConfig)) 0
           (mkCounters 0 0).

(** [for (let i = 0; i < privateKeys.length; i++)] *)
Fixpoint walletLoop (userConfig : UserConfig) (privateKeys : list string)
         (i : Z) (results : list Counters) : M (list Counters) :=
  match privateKeys with
  | [] => ret results
  | key :: rest =>
      result <- processWallet key i userConfig ;;
      walletLoop userConfig rest (i + 1) (results ++ [result])
  end.

(** [results.forEach((result, index) => ...)] *)
Fixpoint reportWallets (results : list Counters) (index : Z) : M unit :=
  match results with
  | [] => ret tt
  | result :: rest =>
      log Info (MWalletSummary (index + 1)) ;;
      log Success (MSuccessfulSwaps (successCount result)) ;;
      log Error (MFailedSwaps (failCount result)) ;;
      divider ;;
      reportWallets rest (index + 1)
  end.

Definition totalOf (field : Counters -> Z) (results : list Counters) : Z :=
  fold_left (fun sum result => sum + field result) results 0.

(** [((totalSuccess / (totalSuccess + totalFail)) * 100).toFixed(2)] *)
Definition successRate (totalSuccess totalFail : Z) : Number :=
  mul (div totalSuccess (totalSuccess + totalFail)) 100.

Definition printSummary (results : list Counters) : M unit :=
  divider ;;
  log Info (MText "EXECUTION SUMMARY") ;;
  divider ;;
  reportWallets results 0 ;;
  let totalSuccess := totalOf successCount results in
  let totalFail := totalOf failCount results in
  log Info (MText "TOTAL RESULTS") ;;
  log Success (MTotalSuccessful totalSuccess) ;;
  log Error (MTotalFailed totalFail) ;;
  log Info (MSuccessRate (toFixed2 (successRate totalSuccess totalFail) ++ "%")%string).

Definition loadKeys (content : string) : list string :=
  filter (fun key => Nat.ltb 0 (String.length key))
         (map trim (split "010" content)).

Definition main : M unit :=
  try_catch
    (userConfig <- lift (read_config env) ;;
     content <- lift (read_keys env) ;;
     let privateKeys := loadKeys content in
     log Info (MLoaded (Z.of_nat (List.length privateKeys))) ;;
     log Info (MConfigured (numberOfSwaps userConfig)) ;;
     divider ;;
     results <- walletLoop userConfig privateKeys 0 [] ;;
     printSummary results)
    (fun message =>
       log Error (MFatal message) ;;
       emit (EvExit 1)).

End Script.

End Common.
Export Common.

(* ===================================================================== *)
(** ** [bot.js]: the script with dynamic gas *)
(* ===================================================================== *)

Module Dynamic.

Definition config : Config := {|
  RPC_URL := "https://soneium.drpc.org";
  CHAIN_ID := 1868;
  QUICKSWAP_ROUTER := "0xeba58c20629ddab41e21a3e4e2422e583ebd9719";
  TOKEN_IN := "0x4200000000000000000000000000000000000006";
  TOKEN_OUT := "0xbA9986D2381edf1DA03B0B9c1f8b00dc4AacC369";
  POOL_FEE := "0x0000000000000000000000000000000000000000";
  DEFAULT_AMOUNT := "0.00002";
  GAS_PRICE_GWEI := "0.01"
|}.

Section Script.
Variable env : Env.

(** The quote [getDynamicGasPrice] derives from the answer of the fee
    query, in wei: the base fee plus the fixed priority fee of 0.008
    gwei, 0.008 gwei in place of a missing base fee, and 0.01 gwei for
    both fees when the query failed. *)
Definition quoteFor (answer : Res (option Z)) : GasQuote :=
  match answer with
  | Ok (Some lastBaseFeePerGas) => mkQuote (lastBaseFeePerGas + 8000000) 8000000
  | Ok None => mkQuote 16000000 8000000
  | Throw _ => mkQuote 10000000 10000000
  end.

Definition getDynamicGasPrice : M GasQuote :=
  try_catch
    (feeData <- getFeeData env ;;
     baseFee <- match feeData with
                | Some lastBaseFeePerGas => ret lastBaseFeePerGas
                | None => lift (parseUnits "0.008" gwei)
                end ;;
     priorityFee <- lift (parseUnits "0.008" gwei) ;;
     let maxFeePerGas := bn_add baseFee priorityFee in
     log Info (MDynamicGasPrices baseFee priorityFee maxFeePerGas) ;;
     ret (mkQuote maxFeePerGas priorityFee))
    (fun message =>
       log Warning (MGasPriceFailed message) ;;
       staticGasPrice <- lift (parseUnits "0.01" gwei) ;;
       log Info (MFallbackGasPrice staticGasPrice) ;;
       ret (mkQuote staticGasPrice staticGasPrice)).

Definition estimateGasWithFallback (wallet : Wallet) (txRequest : TxRequest)
  : M Z :=
  try_catch
    (gasEstimate <- estimateGas env txRequest ;;
     let gasWithBuffer := bn_div (bn_mul gasEstimate 120) 100 in
     log Info (MGasEstimated gasEstimate gasWithBuffer) ;;
     ret gasWithBuffer)
    (fun message =>
       let errorMessage := before_semicolon message in
       log Warning (MText errorMessage) ;;
       let defaultGas := 350000 in
       log Info (MFallbackGasLimit defaultGas) ;;
       ret defaultGas).

Definition checkBalance (wallet : Wallet) (amount gasEstimate gasPrice : Z)
  : M bool :=
  balance <- getBalance env wallet ;;
  let totalCost := bn_add amount (bn_mul gasEstimate gasPrice) in
  log Info (MBalanceCheck balance amount (bn_mul gasEstimate gasPrice) totalCost) ;;
  ret (bn_gte balance totalCost).

Definition createSwap (wallet : Wallet) (amount : Z) (recipient : Address)
  : M TxRequest :=
  expiry <- deadline env ;;
  let data := ExactInputSingle (TOKEN_IN config) (TOKEN_OUT config)
                (POOL_FEE config) recipient expiry amount 53081 0 in
  let txRequest := mkTx (CHAIN_ID config) (QUICKSWAP_ROUTER config) amount data 2
                        None None None None in
  quote <- getDynamicGasPrice ;;
  let maxFeePerGas := quoteMaxFeePerGas quote in
  let maxPriorityFeePerGas := quoteMaxPriorityFeePerGas quote in
  gasLimit <- estimateGasWithFallback wallet txRequest ;;
  hasEnoughBalance <- checkBalance wallet amount gasLimit maxFeePerGas ;;
  if negb hasEnoughBalance then
    throw "Insufficient balance for transaction"
  else
    ret (set_fees (set_gasLimit txRequest gasLimit)
                  maxFeePerGas maxPriorityFeePerGas).

(** One step of the sequence: the request with the fees of the quote and
    the next nonce, its gas limit estimated, sent and awaited. *)
Definition baseTx (quote : GasQuote) (dest : Address) (amount : Z)
           (calldata : CallData) (nonce : Z) : TxRequest :=
  mkTx (CHAIN_ID config) dest amount calldata 2 (Some nonce) None
       (Some (quoteMaxFeePerGas quote)) (Some (quoteMaxPriorityFeePerGas quote)).

Definition createSequentialSwap (wallet : Wallet) (amount : Z)
           (recipient : Address) : M TxRequest :=
  log Info (MText "Starting Sequential Swap Process with Dynamic Gas") ;;
  log Info (MText "Checking initial balances...") ;;
  _ <- checkBalances env config wallet ;;
  quote <- getDynamicGasPrice ;;
  expiry1 <- deadline env ;;
  let swapParams1 := ExactInputSingle (TOKEN_IN config) (TOKEN_OUT config)
                       (POOL_FEE config) recipient expiry1 amount 53081 0 in
  currentNonce <- getTransactionCount env wallet ;;
  (* Step 1: ETH to USDC *)
  let tx1Request := baseTx quote (QUICKSWAP_ROUTER config) amount swapParams1
                           currentNonce in
  let currentNonce := currentNonce + 1 in
  gas1 <- estimateGasWithFallback wallet tx1Request ;;
  let tx1Request := set_gasLimit tx1Request gas1 in
  log Info (MStep 1 (Some amount)) ;;
  swap1 <- sendTransaction env wallet tx1Request ;;
  _ <- wait env swap1 ;;
  log Success (MStepDone 1 swap1) ;;
  sleep 2000 ;;
  log Info (MCheckingBalancesAfter 1) ;;
  _ <- checkBalances env config wallet ;;
  (* Step 2: approve USDC *)
  let approveData := Approve (QUICKSWAP_ROUTER config) MaxUint256 in
  let approveTxRequest := baseTx quote (TOKEN_OUT config) 0 approveData
                                 currentNonce in
  let currentNonce := currentNonce + 1 in
  gas2 <- estimateGasWithFallback wallet approveTxRequest ;;
  let approveTxRequest := set_gasLimit approveTxRequest gas2 in
  log Info (MStep 2 None) ;;
  approve <- sendTransaction env wallet approveTxRequest ;;
  _ <- wait env approve ;;
  log Success (MStepDone 2 approve) ;;
  sleep 2000 ;;
  balances <- checkBalances env config wallet ;;
  let usdcBalance := usdcBalance balances in
  (* Step 3: USDC to WETH *)
  expiry2 <- deadline env ;;
  let swapParams2 := ExactInputSingle (TOKEN_OUT config) (TOKEN_IN config)
                       (POOL_FEE config) recipient expiry2 usdcBalance 53081 0 in
  let tx2Request := baseTx quote (QUICKSWAP_ROUTER config) 0 swapParams2
                           currentNonce in
  let currentNonce := currentNonce + 1 in
  gas3 <- estimateGasWithFallback wallet tx2Request ;;
  let tx2Request := set_gasLimit tx2Request gas3 in
  log Info (MStep 3 (Some usdcBalance)) ;;
  swap2 <- sendTransaction env wallet tx2Request ;;
  _ <- wait env swap2 ;;
  log Success (MStepDone 3 swap2) ;;
  sleep 2000 ;;
  log Info (MCheckingBalancesAfter 3) ;;
  wethBalance <- getWETHBalance env config wallet ;;
  log Info (MWethBalance wethBalance) ;;
  (* Step 4: approve WETH *)
  let approveWethData := Approve (QUICKSWAP_ROUTER config) MaxUint256 in
  let approveWethTxRequest := baseTx quote (TOKEN_IN config) 0 approveWethData
                                     currentNonce in
  let currentNonce := currentNonce + 1 in
  gas4 <- estimateGasWithFallback wallet approveWethTxRequest ;;
  let approveWethTxRequest := set_gasLimit approveWethTxRequest gas4 in
  log Info (MStep 4 None) ;;
  approveWeth <- sendTransaction env wallet approveWethTxRequest ;;
  _ <- wait env approveWeth ;;
  log Success (MStepDone 4 approveWeth) ;;
  sleep 2000 ;;
  (* Step 5: withdraw WETH to ETH *)
  let withdrawData := Withdraw wethBalance in
  let withdrawTxRequest := baseTx quote (TOKEN_IN config) 0 withdrawData
                                  currentNonce in
  let currentNonce := currentNonce + 1 in
  gas5 <- estimateGasWithFallback wallet withdrawTxRequest ;;
  let withdrawTxRequest := set_gasLimit withdrawTxRequest gas5 in
  log Info (MStep 5 (Some wethBalance)) ;;
  withdraw <- sendTransaction env wallet withdrawTxRequest ;;
  _ <- wait env withdraw ;;
  log Success (MStepDone 5 withdraw) ;;
  sleep 2000 ;;
  log Info (MText "Final balances:") ;;
  _ <- checkBalances env config wallet ;;
  ret tx1Request.

(** The details object is built, but [logger.info] takes one argument
    and drops it. *)
Definition logTransactionDetails (tx : TxRequest) : M unit :=
  match gasLimit tx, maxFeePerGas tx, maxPriorityFeePerGas tx with
  | Some _, Some _, Some _ => log Info (MTransactionDetails None)
  | _, _, _ => throw "Cannot read properties of undefined"
  end.

Definition swapAttempt : Wallet -> UserConfig -> Z -> Counters -> M Counters :=
  Common.swapAttempt env config createSwap createSequentialSwap logTransactionDetails.

Definition swapIteration : Wallet -> UserConfig -> Z -> Counters -> M Counters :=
  Common.swapIteration env config createSwap createSequentialSwap logTransactionDetails.

Definition processWallet : string -> Z -> UserConfig -> M Counters :=
  Common.processWallet env config createSwap createSequentialSwap logTransactionDetails.

Definition main : M unit :=
  Common.main env config createSwap createSequentialSwap logTransactionDetails.

End Script.

End Dynamic.

(* ===================================================================== *)
(** ** The script with a static gas price *)
(* ===================================================================== *)

Module Static.

Definition config : Config := {|
  RPC_URL := "https://rpc.soneium.org/";
  CHAIN_ID := 1868;
  QUICKSWAP_ROUTER := "0xeba58c20629ddab41e21a3e4e2422e583ebd9719";
  TOKEN_IN := "0x4200000000000000000000000000000000000006";
  TOKEN_OUT := "0xbA9986D2381edf1DA03B0B9c1f8b00dc4AacC369";
  POOL_FEE := "0x0000000000000000000000000000000000000000";
  DEFAULT_AMOUNT := "0.00002";
  GAS_PRICE_GWEI := "0.0012"
|}.

Section Script.
Variable env : Env.

Definition checkBalance (wallet : Wallet) (amount gasEstimate gasPrice : Z)
  : M bool :=
  balance <- getBalance env wallet ;;
  let totalCost := bn_add amount (bn_mul gasEstimate gasPrice) in
  log Console (MBalanceLine balance) ;;
  log Console (MTotalCostLine totalCost) ;;
  log Console (MGasCostLine (bn_mul gasEstimate gasPrice)) ;;
  ret (bn_gte balance totalCost).

Definition createSwap (wallet : Wallet) (amount : Z) (recipient : Address)
  : M TxRequest :=
  expiry <- deadline env ;;
  let data := ExactInputSingle (TOKEN_IN config) (TOKEN_OUT config)
                (POOL_FEE config) recipient expiry amount 53081 0 in
  let txRequest := mkTx (CHAIN_ID config) (QUICKSWAP_ROUTER config) amount data 2
                        None None None None in
  gasEstimate <- estimateGas env txRequest ;;
  gasPrice <- lift (parseUnits (GAS_PRICE_GWEI config) gwei) ;;
  hasEnoughBalance <- checkBalance wallet amount gasEstimate gasPrice ;;
  if negb hasEnoughBalance then
    throw "Insufficient balance for transaction"
  else
    ret (set_fees (set_gasLimit txRequest 350000) gasPrice gasPrice).

(** A request of the sequence, written out in full in the source. *)
Definition stepTx (dest : Address) (amount : Z) (calldata : CallData)
           (nonce gasLimit gasPrice : Z) : TxRequest :=
  mkTx (CHAIN_ID config) dest amount calldata 2 (Some nonce) (Some gasLimit)
       (Some gasPrice) (Some gasPrice).

Definition createSequentialSwap (wallet : Wallet) (amount : Z)
           (recipient : Address) : M TxRequest :=
  log Info (MText "Starting Sequential Swap Process") ;;
  log Info (MText "Checking initial balances...") ;;
  _ <- checkBalances env config wallet ;;
  expiry1 <- deadline env ;;
  let swapParams1 := ExactInputSingle (TOKEN_IN config) (TOKEN_OUT config)
                       (POOL_FEE config) recipient expiry1 amount 53081 0 in
  currentNonce <- getTransactionCount env wallet ;;
  gasPrice <- lift (parseUnits (GAS_PRICE_GWEI config) gwei) ;;
  (* Step 1: ETH to USDC *)
  let tx1 := stepTx (QUICKSWAP_ROUTER config) amount swapParams1
                    currentNonce 350000 gasPrice in
  let currentNonce := currentNonce + 1 in
  log Info (MStep 1 (Some amount)) ;;
  swap1 <- sendTransaction env wallet tx1 ;;
  _ <- wait env swap1 ;;
  log Success (MStepDone 1 swap1) ;;
  sleep 2000 ;;
  log Info (MCheckingBalancesAfter 1) ;;
  _ <- checkBalances env config wallet ;;
  (* Step 2: approve USDC *)
  let approveData := Approve (QUICKSWAP_ROUTER config) MaxUint256 in
  let approveTx := stepTx (TOKEN_OUT config) 0 approveData
                          currentNonce 350000 gasPrice in
  let currentNonce := currentNonce + 1 in
  log Info (MStep 2 None) ;;
  approve <- sendTransaction env wallet approveTx ;;
  _ <- wait env approve ;;
  log Success (MStepDone 2 approve) ;;
  sleep 2000 ;;
  balances <- checkBalances env config wallet ;;
  let usdcBalance := usdcBalance balances in
  (* Step 3: USDC to WETH *)
  expiry2 <- deadline env ;;
  let swapParams2 := ExactInputSingle (TOKEN_OUT config) (TOKEN_IN config)
                       (POOL_FEE config) recipient expiry2 usdcBalance 53081 0 in
  let tx2 := stepTx (QUICKSWAP_ROUTER config) 0 swapParams2
                    currentNonce 350000 gasPrice in
  let currentNonce := currentNonce + 1 in
  log Info (MStep 3 (Some usdcBalance)) ;;
  swap2 <- sendTransaction env wallet tx2 ;;
  _ <- wait env swap2 ;;
  log Success (MStepDone 3 swap2) ;;
  sleep 2000 ;;
  log Info (MCheckingBalancesAfter 3) ;;
  wethBalance <- getWETHBalance env config wallet ;;
  log Info (MWethBalance wethBalance) ;;
  (* Step 4: approve WETH *)
  let approveWethData := Approve (QUICKSWAP_ROUTER config) MaxUint256 in
  let approveWethTx := stepTx (TOKEN_IN config) 0 approveWethData
                              currentNonce 350000 gasPrice in
  let currentNonce := currentNonce + 1 in
  log Info (MStep 4 None) ;;
  approveWeth <- sendTransaction env wallet approveWethTx ;;
  _ <- wait env approveWeth ;;
  log Success (MStepDone 4 approveWeth) ;;
  sleep 2000 ;;
  (* Step 5: withdraw WETH to ETH, with a lower gas limit *)
  let withdrawData := Withdraw wethBalance in
  let withdrawTx := stepTx (TOKEN_IN config) 0 withdrawData
                           currentNonce 100000 gasPrice in
  let currentNonce := currentNonce + 1 in
  log Info (MStep 5 (Some wethBalance)) ;;
  withdraw <- sendTransaction env wallet withdrawTx ;;
  _ <- wait env withdraw ;;
  log Success (MStepDone 5 withdraw) ;;
  sleep 2000 ;;
  log Info (MText "Final balances:") ;;
  _ <- checkBalances env config wallet ;;
  ret tx1.

(** [console.log] prints the details: gas limit, the two fees, value. *)
Definition logTransactionDetails (tx : TxRequest) : M unit :=
  match gasLimit tx, maxFeePerGas tx, maxPriorityFeePerGas tx with
  | Some g, Some f, Some p =>
      log Console (MTransactionDetails (Some (g, f, p, value tx)))
  | _, _, _ => throw "Cannot read properties of undefined"
  end.

Definition swapAttempt : Wallet -> UserConfig -> Z -> Counters -> M Counters :=
  Common.swapAttempt env config createSwap createSequentialSwap logTransactionDetails.

Definition swapIteration : Wallet -> UserConfig -> Z -> Counters -> M Counters :=
  Common.swapIteration env config createSwap createSequentialSwap logTransactionDetails.

Definition processWallet : string -> Z -> UserConfig -> M Counters :=
  Common.processWallet env config createSwap createSequentialSwap
                       logTransactionDetails.

Definition main : M unit :=
  Common.main env config createSwap createSequentialSwap logTransactionDetails.

End Script.

End Static.

(* ===================================================================== *)
(** ** Reading a trace *)
(* ===================================================================== *)

Module Trace.

(** The requests handed to [wallet.sendTransaction], in order. *)
Definition sentOf (e : Event) : list TxRequest :=
  match e with
  | EvSendTransaction _ tx _ => [tx]
  | _ => []
  end.

Definition sent (ev : list Event) : list TxRequest := flat_map sentOf ev.

(** How the nonce is used: read from the network, or carried by a
    submitted transaction. *)
Inductive NonceUse :=
| NonceRead (answer : Res Z)
| NonceSent (n : option Z).

Definition nonceUse (e : Event) : list NonceUse :=
  match e with
  | EvGetTransactionCount _ answer => [NonceRead answer]
  | EvSendTransaction _ tx _ => [NonceSent (nonce tx)]
  | _ => []
  end.

Definition nonceUses (ev : list Event) : list NonceUse := flat_map nonceUse ev.

(** The nonces [N], [N+1], ... of [k] consecutive transactions. *)
Definition consecutive (N : Z) (k : nat) : list NonceUse :=
  map (fun i => NonceSent (Some (N + Z.of_nat i))) (seq 0 k).

(** The nonce is read at most once, and the transactions submitted after
    a read of [N] carry [N], [N+1], ... in that order; a sequence that
    completes has submitted five of them. *)
Definition inNonceOrder (r : Res TxRequest) (uses : list NonceUse) : Prop :=
  (uses = []
   \/ (exists message, uses = [NonceRead (Throw message)])
   \/ (exists N k, (k <= 5)%nat /\ uses = NonceRead (Ok N) :: consecutive N k))
  /\ (is_ok r = true -> exists N, uses = NonceRead (Ok N) :: consecutive N 5).

(** A sequence that ran to its end: it returned, having read the nonce
    [N] once and submitted [N], [N+1], [N+2], [N+3], [N+4] in that
    order. *)
Definition completesInOrder (r : Res TxRequest) (uses : list NonceUse) : Prop :=
  is_ok r = true /\ exists N, uses = NonceRead (Ok N) :: consecutive N 5.

(** How fees are used: queried from the network, or carried by a
    submitted transaction. *)
Inductive FeeUse :=
| FeeQuery (answer : Res (option Z))
| FeeCarried (maxFee priorityFee : option Z).

Definition feeUse (e : Event) : list FeeUse :=
  match e with
  | EvGetFeeData answer => [FeeQuery answer]
  | EvSendTransaction _ tx _ => [FeeCarried (maxFeePerGas tx) (maxPriorityFeePerGas tx)]
  | _ => []
  end.

Definition feeUses (ev : list Event) : list FeeUse := flat_map feeUse ev.

Definition carried (quote : GasQuote) : FeeUse :=
  FeeCarried (Some (quoteMaxFeePerGas quote)) (Some (quoteMaxPriorityFeePerGas quote)).

(** The runs of the balance guard, seen by the first line it logs, with
    the balance it read. *)
Definition balanceCheck (e : Event) : list Z :=
  match e with
  | EvLog Info (MBalanceCheck balance _ _ _) => [balance]
  | EvLog Console (MBalanceLine balance) => [balance]
  | _ => []
  end.

Definition balanceChecks (ev : list Event) : list Z := flat_map balanceCheck ev.

Definition sleeps (ev : list Event) : list Z :=
  flat_map (fun e => match e with EvSleep ms => [ms] | _ => [] end) ev.

Definition errorsLogged (ev : list Event) : list string :=
  flat_map (fun e => match e with
                     | EvLog Error (MErrorInSwap _ message) => [message]
                     | _ => []
                     end) ev.

Definition successRates (ev : list Event) : list string :=
  flat_map (fun e => match e with
                     | EvLog Info (MSuccessRate percent) => [percent]
                     | _ => []
                     end) ev.

Definition exits (ev : list Event) : list Z :=
  flat_map (fun e => match e with EvExit code => [code] | _ => [] end) ev.

(** The dynamic script asks for the fees at most once, before it submits
    anything, and every transaction carries the quote of that answer. *)
Definition quotedOnce (uses : list FeeUse) : Prop :=
  uses = []
  \/ exists answer k, (k <= 5)%nat
       /\ uses = FeeQuery answer :: repeat (carried (Dynamic.quoteFor answer)) k.

(** The static script never asks, and every transaction carries [price]
    for both fees. *)
Definition fixedPrice (price : Z) (uses : list FeeUse) : Prop :=
  exists k, (k <= 5)%nat /\ uses = repeat (carried (mkQuote price price)) k.

(** What a single swap built by the static script has behind it: a raw
    estimate [X], a balance [B], and a guard that compared [B] with the
    cost at [X]. *)
Definition builtOnRawEstimate (w : Wallet) (V : Z) (r : Res TxRequest)
           (ev : list Event) : Prop :=
  forall tx, r = Ok tx ->
    gasLimit tx = Some 350000
    /\ maxFeePerGas tx = Some 1200000
    /\ value tx = V
    /\ exists request X B,
         In (EvEstimateGas request (Ok X)) ev
         /\ In (EvGetBalance (address w) (Ok B)) ev
         /\ In (EvLog Console (MTotalCostLine (V + X * 1200000))) ev
         /\ V + X * 1200000 <= B.

(** How an iteration of the runner ends: after its two opening lines and
    the events of the attempt, a pause of
    [floor(r * 10000) + 5000] ms, the product being that of doubles, for
    the double [r] drawn from [0, 1) when the attempt returned, and the
    error line alone when it threw. *)
Definition cycleEnds (attempt iteration : M Counters) (i total : Z)
           (h : History) : Prop :=
  let started := [EvLog Console MDivider; EvLog Info (MStartingSwap (i + 1) total)] in
  exists tail,
    events iteration h = started ++ events attempt (h ++ started) ++ tail
    /\ match result attempt (h ++ started) with
       | Ok _ =>
           exists r delay,
             (0 <= r)%Q /\ (r <= 1 - (1 # 9007199254740992))%Q
             /\ delay = Qfloor (fmul r (inject_Z 10000)) + 5000
             /\ 5000 <= delay < 15000
             /\ tail = [EvRandom r;
                        EvLog Info (MWaiting (Qfloor (fdiv (inject_Z delay)
                                                           (inject_Z 1000))));
                        EvSleep delay]
       | Throw message => tail = [EvLog Error (MErrorInSwap (i + 1) message)]
       end.

(** [observes f m Q]: whatever happened before, the result of [m] and
    what [f] reads off the events of [m] satisfy [Q]. *)
Definition observes {A X} (f : Event -> list X) (m : M A)
           (Q : Res A -> list X -> Prop) : Prop :=
  forall h, Q (result m h) (flat_map f (events m h)).

End Trace.
Export Trace.

(* ===================================================================== *)
(** ** Concrete networks for running the scripts *)
(* ===================================================================== *)

Module Scenario.

(** Whether an account holding [balance] can pay for [tx]. *)
Definition affordable (balance : Z) (tx : TxRequest) : bool :=
  match gasLimit tx, maxFeePerGas tx with
  | Some g, Some f => value tx + g * f <=? balance
  | _, _ => value tx <=? balance
  end.

(** A node where every account holds [balance] wei: it refuses what the
    account cannot pay, counts the transactions it accepted into the nonce,
    and its base fee drifts with every event. *)
Definition node (balance : Z) (baseFee : option Z) (estimate : Z)
           (userConfig : Res UserConfig) (keys : Res string) : Env := {|
  rpc_getFeeData := fun h =>
    Ok (option_map (fun b => b + Z.of_nat (List.length h)) baseFee);
  rpc_estimateGas := fun _ tx =>
    if value tx <=? balance then Ok estimate
    else Throw "insufficient funds for gas * price + value; estimateGas failed";
  rpc_getBalance := fun _ _ => Ok balance;
  rpc_balanceOf := fun _ _ _ => Ok 31000;
  rpc_getTransactionCount := fun h _ => Ok (7 + Z.of_nat (List.length (sent h)));
  rpc_sendTransaction := fun _ _ tx =>
    if affordable balance tx then Ok "0xabc"
    else Throw "insufficient funds for intrinsic transaction cost";
  rpc_wait := fun _ _ => Ok 1;
  math_random := fun _ => (1 # 4)%Q;
  date_now := fun _ => 1700000000000;
  wallet_of_key := fun key => Ok key;
  read_config := userConfig;
  read_keys := keys
|}.

(** A node whose fee query fails. *)
Definition nodeWithoutFees (balance : Z) : Env :=
  let base := node balance None 200001 (Throw "ENOENT") (Throw "ENOENT") in
  mkEnv (fun _ => Throw "could not detect network")
        (rpc_estimateGas base) (rpc_getBalance base) (rpc_balanceOf base)
        (rpc_getTransactionCount base) (rpc_sendTransaction base) (rpc_wait base)
        (math_random base) (date_now base) (wallet_of_key base)
        (read_config base) (read_keys base).

Definition sequentialOnce : UserConfig :=
  mkUserConfig 1 (Some "0.00002") true.

Definition singleThrice : UserConfig :=
  mkUserConfig 3 (Some "0.00002") false.

Definition oneEther : Z := 10 ^ 18.

Definition funded : Env :=
  node oneEther (Some 1000000) 200001 (Ok sequentialOnce) (Ok "key1").

Definition broke : Env :=
  node 0 (Some 1000000) 200001 (Ok sequentialOnce) (Ok "key1").

(** Just enough for the swap at the estimated gas, not at 350000. *)
Definition tight : Env :=
  node 20240001200000 (Some 1000000) 200001 (Ok singleThrice) (Ok "key1").

(** A run with an empty key file, and a run that asks for no swaps. *)
Definition noWallets : Env :=
  node oneEther (Some 1000000) 200001 (Ok sequentialOnce) (Ok "").

Definition noSwaps : Env :=
  node oneEther (Some 1000000) 200001 (Ok (mkUserConfig 0 None true)) (Ok "key1").

Definition alice : Wallet := mkWallet "0xA11CE".

(** The first request of a swap of [amount], before gas and nonce. *)
Definition draft (amount : Z) : TxRequest :=
  mkTx 1868 "0xeba58c20629ddab41e21a3e4e2422e583ebd9719" amount
       (ExactInputSingle "0x4200000000000000000000000000000000000006"
                         "0xbA9986D2381edf1DA03B0B9c1f8b00dc4AacC369"
                         "0x0000000000000000000000000000000000000000"
                         "0xA11CE" 1700003600 amount 53081 0)
       2 None None None None.

End Scenario.

(* ===================================================================== *)
(** ** More to read off a trace *)
(* ===================================================================== *)

Module Shape.

(** The limit [estimateGasWithFallback] derives from the answer of the
    simulation. *)
Definition gasLimitFor (answer : Res Z) : Z :=
  match answer with
  | Ok gasEstimate => bn_div (bn_mul gasEstimate 120) 100
  | Throw _ => 350000
  end.

(** The life of the transactions of a sequence: submitted, awaited, and
    followed by a pause. *)
Inductive StepUse :=
| Submitted (answer : Res Hash)
| Awaited (hash : Hash) (answer : Res Z)
| Paused (ms : Z).

Definition stepUse (e : Event) : list StepUse :=
  match e with
  | EvSendTransaction _ _ answer => [Submitted answer]
  | EvWait hash answer => [Awaited hash answer]
  | EvSleep ms => [Paused ms]
  | _ => []
  end.

(** [oneByOne k uses]: [k] transactions were each submitted, awaited until
    their receipt came and followed by a pause of 2000 ms, before anything
    else was submitted; after them at most one more transaction was
    submitted, and it was refused or its receipt never came. *)
Inductive oneByOne : nat -> list StepUse -> Prop :=
| obo_done : oneByOne 0 []
| obo_refused message : oneByOne 0 [Submitted (Throw message)]
| obo_unconfirmed hash message :
    oneByOne 0 [Submitted (Ok hash); Awaited hash (Throw message)]
| obo_confirmed hash status k rest :
    oneByOne k rest ->
    oneByOne (S k) (Submitted (Ok hash) :: Awaited hash (Ok status)
                      :: Paused 2000 :: rest).

(** What a sequence reads and submits: the clock, token balances, and the
    destination, value and call data of each transaction. *)
Inductive SeqUse :=
| Clock (ms : Z)
| Held (token : Address) (answer : Res Z)
| Sends (dest : Address) (amount : Z) (calldata : CallData).

Definition seqUse (e : Event) : list SeqUse :=
  match e with
  | EvNow ms => [Clock ms]
  | EvBalanceOf token _ answer => [Held token answer]
  | EvSendTransaction _ tx _ => [Sends (to tx) (value tx) (data tx)]
  | _ => []
  end.

(** A completed sequence, for the clock readings [t1], [t2] and the
    balances read on the way: USDC and WETH before the first step ([u0],
    [w0]), after step 1, after step 2, WETH after step 3 ([w3]), and the
    final balances. *)
Definition sequencePlan (config : Config) (recipient : Address)
           (amount t1 t2 u0 w0 u1 w1 u2 w2 w3 u4 w4 : Z) : list SeqUse :=
  [ Held (TOKEN_OUT config) (Ok u0); Held (TOKEN_IN config) (Ok w0);
    Clock t1;
    Sends (QUICKSWAP_ROUTER config) amount
          (ExactInputSingle (TOKEN_IN config) (TOKEN_OUT config) (POOL_FEE config)
                            recipient (t1 / 1000 + 3600) amount 53081 0);
    Held (TOKEN_OUT config) (Ok u1); Held (TOKEN_IN config) (Ok w1);
    Sends (TOKEN_OUT config) 0 (Approve (QUICKSWAP_ROUTER config) MaxUint256);
    Held (TOKEN_OUT config) (Ok u2); Held (TOKEN_IN config) (Ok w2);
    Clock t2;
    Sends (QUICKSWAP_ROUTER config) 0
          (ExactInputSingle (TOKEN_OUT config) (TOKEN_IN config) (POOL_FEE config)
                            recipient (t2 / 1000 + 3600) u2 53081 0);
    Held (TOKEN_IN config) (Ok w3);
    Sends (TOKEN_IN config) 0 (Approve (QUICKSWAP_ROUTER config) MaxUint256);
    Sends (TOKEN_IN config) 0 (Withdraw w3);
    Held (TOKEN_OUT config) (Ok u4); Held (TOKEN_IN config) (Ok w4) ].

(** Simulations and submissions. *)
Inductive GasUse :=
| Simulated (tx : TxRequest) (answer : Res Z)
| SentWith (tx : TxRequest).

Definition gasUse (e : Event) : list GasUse :=
  match e with
  | EvEstimateGas tx answer => [Simulated tx answer]
  | EvSendTransaction _ tx _ => [SentWith tx]
  | _ => []
  end.

(** [estimatedThenSent k uses]: [k] requests, each simulated without a gas
    limit and then submitted with the limit derived from the answer of its
    own simulation. *)
Inductive estimatedThenSent : nat -> list GasUse -> Prop :=
| ets_nil : estimatedThenSent 0 []
| ets_step tx answer k rest :
    gasLimit tx = None ->
    estimatedThenSent k rest ->
    estimatedThenSent (S k)
      (Simulated tx answer :: SentWith (set_gasLimit tx (gasLimitFor answer)) :: rest).

(** The gas limits the static script writes into the five requests. *)
Definition staticGasLimits : list (option Z) :=
  [Some 350000; Some 350000; Some 350000; Some 350000; Some 100000].

(** A request as [createSwap] returns it: gas limit and fees set, no
    nonce yet. *)
Definition readyToSend (tx : TxRequest) : Prop :=
  nonce tx = None
  /\ exists g f p, gasLimit tx = Some g /\ maxFeePerGas tx = Some f
                   /\ maxPriorityFeePerGas tx = Some p.

(** The nonce in a single swap: nothing, a failed read, or a read of [N]
    followed by one transaction carrying [N]. *)
Definition freshNonce (r : Res Counters) (uses : list NonceUse) : Prop :=
  (uses = []
   \/ (exists message, uses = [NonceRead (Throw message)])
   \/ (exists N, uses = [NonceRead (Ok N); NonceSent (Some N)]))
  /\ (is_ok r = true -> exists N, uses = [NonceRead (Ok N); NonceSent (Some N)]).

(** The events of [remaining] cycles, from cycle [i], that each failed
    with [message] before doing anything. *)
Fixpoint failedCycles (remaining : nat) (i total : Z) (message : string)
  : list Event :=
  match remaining with
  | O => []
  | S k =>
      [EvLog Console MDivider; EvLog Info (MStartingSwap (i + 1) total);
       EvLog Error (MErrorInSwap (i + 1) message)]
        ++ failedCycles k (i + 1) total message
  end.

(** The course of a batch: wallets started, the totals and the rate of the
    summary, the fatal line, the exit. *)
Inductive BatchUse :=
| WalletStarted (addr : Address) (number : Z)
| TotalSuccess (n : Z)
| TotalFail (n : Z)
| RateLine (percent : string)
| FatalLine (message : string)
| Exited (code : Z).

Definition batchUse (e : Event) : list BatchUse :=
  match e with
  | EvLog Console (MWalletHeader addr number) => [WalletStarted addr number]
  | EvLog Success (MTotalSuccessful n) => [TotalSuccess n]
  | EvLog Error (MTotalFailed n) => [TotalFail n]
  | EvLog Info (MSuccessRate percent) => [RateLine percent]
  | EvLog Error (MFatal message) => [FatalLine message]
  | EvExit code => [Exited code]
  | _ => []
  end.

Definition batchUses (ev : list Event) : list BatchUse := flat_map batchUse ev.

(** Wallets started one after the other, numbered from [i + 1]. *)
Fixpoint startedWallets (addrs : list Address) (i : Z) : list BatchUse :=
  match addrs with
  | [] => []
  | addr :: rest => WalletStarted addr (i + 1) :: startedWallets rest (i + 1)
  end.

(** The wallets of the keys up to the first key that is refused, and the
    message of that refusal. *)
Fixpoint acceptedKeys (env : Env) (keys : list string)
  : list Address * option string :=
  match keys with
  | [] => ([], None)
  | key :: rest =>
      match wallet_of_key env key with
      | Ok addr => let (addrs, refusal) := acceptedKeys env rest in
                   (addr :: addrs, refusal)
      | Throw message => ([], Some message)
      end
  end.

End Shape.
Export Shape.

(** Two keys in a key file with a blank line and stray white space, on a
    node that holds one ether per account; and the same with a second key
    that is refused. *)
Module MoreScenarios.

(** U+FEFF, the byte order mark, and U+00A0, the no-break space, in UTF-8. *)
Definition byteOrderMark : string := String "239" (String "187" (String "191" "")).
Definition noBreakSpace : string := String "194" (String "160" "").

(** The private keys 1 and 2 and the addresses of their accounts. *)
Definition firstKey : string :=
  "0x0000000000000000000000000000000000000000000000000000000000000001".
Definition secondKey : string :=
  "0x0000000000000000000000000000000000000000000000000000000000000002".
Definition firstAddress : Address := "0x7E5F4552091A69125d5DfCb7b8C2659029395Bdf".
Definition secondAddress : Address := "0x2B5AD5c4795c026514f8317c7a215E218DcCD6cF".

(** A key that is too short. *)
Definition shortKey : string := "0x1234".

Definition walletOf (key : string) : Res Address :=
  if String.eqb key firstKey then Ok firstAddress
  else if String.eqb key secondKey then Ok secondAddress
  else Throw "invalid private key".

(** A key file that opens with a byte order mark: two keys on four lines. *)
Definition twoKeys : string :=
  String.concat (String "010" "")
    [(byteOrderMark ++ firstKey ++ " ")%string; "";
     ("  " ++ secondKey ++ noBreakSpace)%string; " "].

(** A key file whose second key is refused. *)
Definition shortSecondKey : string :=
  String.concat (String "010" "") [firstKey; shortKey; secondKey].

Definition withKeys (env : Env) (keys : string) : Env :=
  mkEnv (rpc_getFeeData env) (rpc_estimateGas env)
        (rpc_getBalance env) (rpc_balanceOf env)
        (rpc_getTransactionCount env) (rpc_sendTransaction env)
        (rpc_wait env) (math_random env) (date_now env)
        walletOf (read_config env) (Ok keys).

Definition twoWallets : Env :=
  withKeys (Scenario.node Scenario.oneEther (Some 1000000) 200001
                          (Ok Scenario.singleThrice) (Ok ""))
           twoKeys.

Definition secondKeyBad : Env := withKeys twoWallets shortSecondKey.

(** A node that accepts and mines whatever it is sent; the transaction
    count of every account is 7. *)
Definition obligingNode : Env := {|
  rpc_getFeeData := fun _ => Ok (Some 1000000);
  rpc_estimateGas := fun _ _ => Ok 200001;
  rpc_getBalance := fun _ _ => Ok Scenario.oneEther;
  rpc_balanceOf := fun _ _ _ => Ok 31000;
  rpc_getTransactionCount := fun _ _ => Ok 7;
  rpc_sendTransaction := fun _ _ _ => Ok "0x5e17";
  rpc_wait := fun _ _ => Ok 1;
  math_random := fun _ => 1 # 4;
  date_now := fun _ => 1700000000000;
  wallet_of_key := walletOf;
  read_config := Ok Scenario.sequentialOnce;
  read_keys := Ok firstKey
|}.

Definition bob : Wallet := mkWallet firstAddress.

End MoreScenarios.

(* ===================================================================== *)
(** ** Reasoning about computations *)
(* ===================================================================== *)

Section Observing.
Context {X : Type} (f : Event -> list X).

Lemma observes_ret {A} (a : A) (Q : Res A -> list X -> Prop) :
  Q (Ok a) [] -> observes f (ret a) Q.
Proof. intros H h. exact H. Qed.

Lemma observes_throw {A} message (Q : Res A -> list X -> Prop) :
  Q (Throw message) [] -> observes f (throw message) Q.
Proof. intros H h. exact H. Qed.

Lemma observes_lift {A} (r : Res A) (Q : Res A -> list X -> Prop) :
  Q r [] -> observes f (lift r) Q.
Proof. intros H h. exact H. Qed.

Lemma observes_emit e (Q : Res unit -> list X -> Prop) :
  Q (Ok tt) (f e) -> observes f (emit e) Q.
Proof. intros H h. unfold result, events, emit. cbn. now rewrite app_nil_r. Qed.

Lemma observes_call {A} (answer : History -> Res A) event
      (Q : Res A -> list X -> Prop) :
  (forall r, Q r (f (event r))) -> observes f (call answer event) Q.
Proof. intros H h. unfold result, events, call. cbn. rewrite app_nil_r. apply H. Qed.

Lemma observes_call_answered {A} (answer : History -> Res A) event
      (Q : Res A -> list X -> Prop) :
  (forall h, exists a, answer h = Ok a) ->
  (forall a, Q (Ok a) (f (event (Ok a)))) ->
  observes f (call answer event) Q.
Proof.
  intros Hanswer H h. unfold result, events, call. cbn. rewrite app_nil_r.
  destruct (Hanswer h) as [a ->]. apply H.
Qed.

Lemma observes_ask {A} (answer : History -> A) event
      (Q : Res A -> list X -> Prop) :
  (forall a, Q (Ok a) (f (event a))) -> observes f (ask answer event) Q.
Proof. intros H h. unfold result, events, ask. cbn. rewrite app_nil_r. apply H. Qed.

Lemma observes_bind {A B} (m : M A) (k : A -> M B) (Q : Res B -> list X -> Prop) :
  observes f m (fun r o =>
    match r with
    | Ok a => observes f (k a) (fun r' o' => Q r' (o ++ o'))
    | Throw message => Q (Throw message) o
    end) ->
  observes f (bind m k) Q.
Proof.
  intros H h. specialize (H h). revert H.
  unfold result, events, bind.
  destruct (m h) as [[a | message] ev]; cbn; [| exact (fun H => H)].
  intros H. specialize (H (h ++ ev)). revert H.
  unfold result, events.
  destruct (k a (h ++ ev)) as [r' ev']. cbn.
  now rewrite flat_map_app.
Qed.

Lemma observes_try_catch {A} (m : M A) handler (Q : Res A -> list X -> Prop) :
  observes f m (fun r o =>
    match r with
    | Ok a => Q (Ok a) o
    | Throw message =>
        observes f (handler message) (fun r' o' => Q r' (o ++ o'))
    end) ->
  observes f (try_catch m handler) Q.
Proof.
  intros H h. specialize (H h). revert H.
  unfold result, events, try_catch.
  destruct (m h) as [[a | message] ev]; cbn; [exact (fun H => H) |].
  intros H. specialize (H (h ++ ev)). revert H.
  unfold result, events.
  destruct (handler message (h ++ ev)) as [r' ev']. cbn.
  now rewrite flat_map_app.
Qed.

Lemma observes_cut {A} (m : M A) (P Q : Res A -> list X -> Prop) :
  observes f m P -> (forall r o, P r o -> Q r o) -> observes f m Q.
Proof. intros H HPQ h. apply HPQ, H. Qed.

End Observing.

(** One step of a computation, by its head. *)
Ltac obs_step :=
  lazymatch goal with
  | |- observes _ (bind _ _) _ => apply observes_bind
  | |- observes _ (try_catch _ _) _ => apply observes_try_catch
  | |- observes _ (ret _) _ => apply observes_ret
  | |- observes _ (throw _) _ => apply observes_throw
  | |- observes _ (lift _) _ => apply observes_lift
  | |- observes _ (emit _) _ => apply observes_emit
  | |- observes _ (log _ _) _ => apply observes_emit
  | |- observes _ (sleep _) _ => apply observes_emit
  | |- observes _ (call _ _) _ => apply observes_call; intros [? | ?]
  | |- observes _ (ask _ _) _ => apply observes_ask; intros ?
  | |- observes _ (match ?x with _ => _ end) _ =>
      let E := fresh "Hcase" in destruct x eqn:E
  | |- match parseUnits ?s ?d with _ => _ end =>
      let v := eval vm_compute in (parseUnits s d) in
      change (parseUnits s d) with v
  end; cbv beta iota zeta.

Ltac open_calls :=
  unfold checkBalances, getWETHBalance, deadline, now, getBalance, balanceOf,
    getTransactionCount, sendTransaction, wait, estimateGas, getFeeData,
    divider, log, sleep.

(** *** The two gas helpers never throw *)

Lemma estimateGasWithFallback_quiet {X} (f : Event -> list X) env w tx :
  (forall x y, f (EvLog Info (MGasEstimated x y)) = []) ->
  (forall s, f (EvLog Warning (MText s)) = []) ->
  (forall g, f (EvLog Info (MFallbackGasLimit g)) = []) ->
  (forall t r, f (EvEstimateGas t r) = []) ->
  observes f (Dynamic.estimateGasWithFallback env w tx)
           (fun r o => (exists g, r = Ok g) /\ o = []).
Proof.
  intros Hok Hwarn Hfall Hest. unfold Dynamic.estimateGasWithFallback. open_calls.
  repeat obs_step; rewrite ?Hok, ?Hwarn, ?Hfall, ?Hest; cbn [app]; split; eauto.
Qed.

Lemma getDynamicGasPrice_quiet {X} (f : Event -> list X) env :
  (forall x y z, f (EvLog Info (MDynamicGasPrices x y z)) = []) ->
  (forall s, f (EvLog Warning (MGasPriceFailed s)) = []) ->
  (forall p, f (EvLog Info (MFallbackGasPrice p)) = []) ->
  observes f (Dynamic.getDynamicGasPrice env)
           (fun r o => exists answer, r = Ok (Dynamic.quoteFor answer)
                                      /\ o = f (EvGetFeeData answer)).
Proof.
  intros Hdyn Hfail Hfall. unfold Dynamic.getDynamicGasPrice. open_calls.
  repeat obs_step; rewrite ?Hdyn, ?Hfail, ?Hfall, ?app_nil_r; cbn [app];
    eexists; (split; [| reflexivity]); reflexivity.
Qed.

(** A known helper at the head of a sequence. *)
Ltac obs_helper :=
  lazymatch goal with
  | |- observes ?f (bind (Dynamic.estimateGasWithFallback _ _ _) _) _ =>
      apply observes_bind;
      eapply observes_cut;
      [ apply estimateGasWithFallback_quiet; reflexivity
      | let g := fresh "gas" in intros ? ? [[g ->] ->] ]
  | |- observes ?f (bind (Dynamic.getDynamicGasPrice _) _) _ =>
      apply observes_bind;
      eapply observes_cut;
      [ apply getDynamicGasPrice_quiet; reflexivity
      | let a := fresh "answer" in intros ? ? [a [-> ->]] ]
  end; cbv beta iota zeta.

Ltac run_sequence := repeat first [obs_helper | obs_step].

(** *** The nonces of a sequence *)

Ltac nonce_list :=
  cbn;
  repeat match goal with
         | |- _ :: _ = _ :: _ =>
             apply (f_equal2 cons);
             [ first [reflexivity | do 2 apply f_equal; lia] | ]
         end;
  reflexivity.

Ltac nonce_prefix N k := exists N, k; split; [lia | nonce_list].

Ltac nonce_leaf :=
  cbn [app nonceUse nonce set_gasLimit Dynamic.baseTx Static.stepTx];
  split;
  [ first [ left; reflexivity
          | right; left; eexists; reflexivity
          | right; right;
            lazymatch goal with
            | |- context [NonceRead (Ok ?N)] =>
                first [ nonce_prefix N 0%nat | nonce_prefix N 1%nat
                      | nonce_prefix N 2%nat | nonce_prefix N 3%nat
                      | nonce_prefix N 4%nat | nonce_prefix N 5%nat ]
            end ]
  | cbn [is_ok];
    first [ discriminate
          | intros _;
            lazymatch goal with
            | |- context [NonceRead (Ok ?N)] =>
                exists N; nonce_list
            end ] ].

Lemma dynamic_nonces env w amount recipient :
  observes nonceUse (Dynamic.createSequentialSwap env w amount recipient) inNonceOrder.
Proof.
  unfold Dynamic.createSequentialSwap. open_calls.
  run_sequence.
  all: nonce_leaf.
Qed.

Lemma static_nonces env w amount recipient :
  observes nonceUse (Static.createSequentialSwap env w amount recipient) inNonceOrder.
Proof.
  unfold Static.createSequentialSwap. open_calls.
  run_sequence.
  all: nonce_leaf.
Qed.

(** *** A sequence that nothing stops *)

Section Obliging.
Variable env : Env.
Hypothesis Hobliging : obliging env.

Lemma obliging_balanceOf h token owner :
  exists v, rpc_balanceOf env h token owner = Ok v.
Proof.
  destruct Hobliging as (_ & Hof & _).
  destruct (Hof h token owner) as (v & Hv & _). eauto.
Qed.

Lemma obliging_getTransactionCount h owner :
  exists n, rpc_getTransactionCount env h owner = Ok n.
Proof.
  destruct Hobliging as (_ & _ & Hcount & _).
  destruct (Hcount h owner) as (n & Hn & _). eauto.
Qed.

Lemma obliging_wait h hash : exists status, rpc_wait env h hash = Ok status.
Proof.
  destruct Hobliging as (_ & _ & _ & _ & Hwait & _).
  exists 1. apply Hwait.
Qed.

Ltac obs_answered :=
  lazymatch goal with
  | |- observes _ (call _ _) _ =>
      apply observes_call_answered;
      [ intros ?; cbv beta;
        first [ apply obliging_balanceOf
              | apply obliging_getTransactionCount
              | apply obliging_wait
              | apply (proj1 Hobliging)
              | apply (proj1 (proj2 (proj2 (proj2 Hobliging)))) ]
      | intros ? ]
  end; cbv beta iota zeta.

Ltac run_answered := repeat first [obs_helper | obs_answered | obs_step].

Ltac completes_leaf :=
  cbn [app nonceUse nonce set_gasLimit Dynamic.baseTx Static.stepTx];
  split;
  [ reflexivity
  | lazymatch goal with
    | |- context [NonceRead (Ok ?N)] => exists N; nonce_list
    end ].

Lemma dynamic_completes w amount recipient :
  observes nonceUse (Dynamic.createSequentialSwap env w amount recipient)
           completesInOrder.
Proof.
  unfold Dynamic.createSequentialSwap. open_calls.
  run_answered.
  all: completes_leaf.
Qed.

Lemma static_completes w amount recipient :
  observes nonceUse (Static.createSequentialSwap env w amount recipient)
           completesInOrder.
Proof.
  unfold Static.createSequentialSwap. open_calls.
  run_answered.
  all: completes_leaf.
Qed.

End Obliging.

(** *** The fees of a sequence *)

Ltac count_to_five tac :=
  first [ tac 0%nat | tac 1%nat | tac 2%nat | tac 3%nat | tac 4%nat | tac 5%nat ].

Ltac fee_leaf :=
  cbn [app feeUse maxFeePerGas maxPriorityFeePerGas set_gasLimit
       Dynamic.baseTx Static.stepTx];
  first [ left; reflexivity
        | right; eexists;
          count_to_five ltac:(fun k => exists k; split; [lia | reflexivity]) ].

Lemma dynamic_fees env w amount recipient :
  observes feeUse (Dynamic.createSequentialSwap env w amount recipient)
           (fun _ uses => quotedOnce uses).
Proof.
  unfold Dynamic.createSequentialSwap. open_calls.
  run_sequence.
  all: fee_leaf.
Qed.

Lemma static_fees env w amount recipient :
  observes feeUse (Static.createSequentialSwap env w amount recipient)
           (fun _ uses => fixedPrice 1200000 uses).
Proof.
  unfold Static.createSequentialSwap. open_calls.
  run_sequence.
  all: cbn [app feeUse maxFeePerGas maxPriorityFeePerGas Static.stepTx];
    count_to_five ltac:(fun k => exists k; split; [lia | reflexivity]).
Qed.

(** *** The balance guard and the sequence *)

Lemma dynamic_unguarded env w amount recipient :
  observes balanceCheck (Dynamic.createSequentialSwap env w amount recipient)
           (fun _ checks => checks = []).
Proof.
  unfold Dynamic.createSequentialSwap. open_calls.
  run_sequence.
  all: reflexivity.
Qed.

Lemma static_unguarded env w amount recipient :
  observes balanceCheck (Static.createSequentialSwap env w amount recipient)
           (fun _ checks => checks = []).
Proof.
  unfold Static.createSequentialSwap. open_calls.
  run_sequence.
  all: reflexivity.
Qed.

(* ===================================================================== *)
(** ** Addresses *)
(* ===================================================================== *)

(** The hash of the empty message:
    c5d2460186f7233c927e7db2dcc703c0e500b653ca82273b7bfad8045d85a470. *)
Example keccak256_of_nothing :
  nibbles (keccak256 [])
  = [12; 5; 13; 2; 4; 6; 0; 1; 8; 6; 15; 7; 2; 3; 3; 12;
     9; 2; 7; 14; 7; 13; 11; 2; 13; 12; 12; 7; 0; 3; 12; 0;
     14; 5; 0; 0; 11; 6; 5; 3; 12; 10; 8; 2; 2; 7; 3; 11;
     7; 11; 15; 10; 13; 8; 0; 4; 5; 13; 8; 5; 10; 4; 7; 0].
Proof. vm_compute. reflexivity. Qed.

(** The addresses configured in the two scripts are accepted: three have
    no letter in upper case, and [TOKEN_OUT] is in the case of its
    checksum. *)
Example configured_addresses_accepted :
  forallb isAddress
    [QUICKSWAP_ROUTER Dynamic.config; TOKEN_IN Dynamic.config;
     TOKEN_OUT Dynamic.config; POOL_FEE Dynamic.config;
     QUICKSWAP_ROUTER Static.config; TOKEN_IN Static.config;
     TOKEN_OUT Static.config; POOL_FEE Static.config] = true.
Proof. vm_compute. reflexivity. Qed.

(** One letter in the other case and the address is refused; so is a
    string that is too short. *)
Example malformed_addresses_refused :
  isAddress "0xba9986D2381edf1DA03B0B9c1f8b00dc4AacC369" = false
  /\ isAddress "0xA11CE" = false.
Proof. split; vm_compute; reflexivity. Qed.

(* ===================================================================== *)
(** ** Double-precision arithmetic *)
(* ===================================================================== *)

Lemma binade_upper n d k :
  0 < n -> 0 <= k -> n < 2 ^ k * Zpos d -> binade n d <= k - 1.
Proof.
  intros Hn Hk Hlt. unfold binade.
  pose proof (Z.log2_spec n Hn) as [Ha _].
  pose proof (Z.log2_spec (Zpos d) (Pos2Z.is_pos d)) as [_ Hb].
  pose proof (Z.log2_nonneg n) as Ha0.
  pose proof (Z.log2_nonneg (Zpos d)) as Hb0.
  set (a := Z.log2 n) in *. set (b := Z.log2 (Zpos d)) in *.
  assert (Hab : a - b <= k).
  { assert (2 ^ a < 2 ^ (k + Z.succ b)).
    { rewrite Z.pow_add_r by lia.
      eapply Z.le_lt_trans; [exact Ha |].
      eapply Z.lt_trans; [exact Hlt |].
      apply Z.mul_lt_mono_pos_l; [apply Z.pow_pos_nonneg; lia | exact Hb]. }
    apply Z.pow_lt_mono_r_iff in H; lia. }
  destruct (pow2_le (a - b) n d) eqn:Hle; [| lia].
  assert (a - b <> k); [| lia].
  intros Heq. unfold pow2_le in Hle. rewrite Heq in Hle.
  destruct (0 <=? k) eqn:Hk'; [| apply Z.leb_gt in Hk'; lia].
  apply Z.leb_le in Hle. lia.
Qed.

Lemma round_half_even_nonneg N D :
  0 <= N -> 0 < D -> 0 <= round_half_even N D.
Proof.
  intros HN HD. unfold round_half_even.
  pose proof (Z.div_pos N D HN HD).
  destruct (2 * (N mod D) ?= D); [destruct (Z.even (N / D)) | |]; lia.
Qed.

Lemma round_half_even_le N D K :
  0 < D -> N <= K * D -> round_half_even N D <= K.
Proof.
  intros HD HN. unfold round_half_even.
  pose proof (Z.div_mod N D ltac:(lia)) as Hdm.
  pose proof (Z.mod_pos_bound N D HD) as Hr.
  assert (Hq : N / D <= K) by nia.
  destruct (2 * (N mod D) ?= D) eqn:Hc.
  - apply Z.compare_eq in Hc. destruct (Z.even (N / D)); [lia | nia].
  - lia.
  - apply Z.compare_gt_iff in Hc. nia.
Qed.

Lemma round_half_even_below N D K :
  0 < D -> 2 * N < (2 * K - 1) * D -> round_half_even N D <= K - 1.
Proof.
  intros HD HN. unfold round_half_even.
  pose proof (Z.div_mod N D ltac:(lia)) as Hdm.
  pose proof (Z.mod_pos_bound N D HD) as Hr.
  destruct (2 * (N mod D) ?= D) eqn:Hc.
  - apply Z.compare_eq in Hc. destruct (Z.even (N / D)); nia.
  - nia.
  - apply Z.compare_gt_iff in Hc. nia.
Qed.

(** Below [2^k] with [k <= 52], the doubles are fractions over a power of
    two [2^t] with [t >= 53 - k]. *)
Lemma round_double_pos_shape n d k :
  0 < n -> 0 <= k <= 52 -> n < 2 ^ k * Zpos d ->
  exists t, 53 - k <= t
            /\ round_double_pos n d
               = round_half_even (n * 2 ^ t) (Zpos d) # Z.to_pos (2 ^ t).
Proof.
  intros Hn Hk Hlt.
  pose proof (binade_upper n d k Hn ltac:(lia) Hlt) as Hb.
  unfold round_double_pos.
  set (E := Z.max (binade n d) (-1022)).
  assert (HE : E <= k - 1) by (unfold E; lia).
  destruct (0 <=? E - 52) eqn:He; [apply Z.leb_le in He; lia |].
  exists (- (E - 52)). split; [lia | reflexivity].
Qed.

Lemma round_double_pos_nonneg n d k :
  0 < n -> 0 <= k <= 52 -> n < 2 ^ k * Zpos d -> (0 <= round_double_pos n d)%Q.
Proof.
  intros Hn Hk Hlt.
  destruct (round_double_pos_shape n d k Hn Hk Hlt) as (t & Ht & ->).
  unfold Qle. cbn [Qnum Qden]. rewrite Z.mul_1_r. cbn.
  apply round_half_even_nonneg; [| lia].
  apply Z.mul_nonneg_nonneg; [lia | apply Z.pow_nonneg; lia].
Qed.

Lemma round_double_pos_le n d k c :
  0 < n -> 0 <= k <= 52 -> n < 2 ^ k * Zpos d -> n <= c * Zpos d ->
  (round_double_pos n d <= inject_Z c)%Q.
Proof.
  intros Hn Hk Hlt Hc.
  destruct (round_double_pos_shape n d k Hn Hk Hlt) as (t & Ht & ->).
  assert (Hpow : 0 < 2 ^ t) by (apply Z.pow_pos_nonneg; lia).
  unfold Qle, inject_Z. cbn [Qnum Qden]. rewrite Z.mul_1_r, Z2Pos.id by exact Hpow.
  apply round_half_even_le; [lia | nia].
Qed.

Lemma round_double_pos_below n d k c :
  0 < n -> 0 <= k <= 52 -> n < 2 ^ k * Zpos d ->
  2 * (n * 2 ^ (53 - k)) < (2 * (c * 2 ^ (53 - k)) - 1) * Zpos d ->
  (round_double_pos n d < inject_Z c)%Q.
Proof.
  intros Hn Hk Hlt Hc.
  destruct (round_double_pos_shape n d k Hn Hk Hlt) as (t & Ht & ->).
  assert (Hpow : 0 < 2 ^ t) by (apply Z.pow_pos_nonneg; lia).
  unfold Qlt, inject_Z. cbn [Qnum Qden]. rewrite Z.mul_1_r, Z2Pos.id by exact Hpow.
  assert (Hsplit : 2 ^ t = 2 ^ (53 - k) * 2 ^ (t - (53 - k))).
  { rewrite <- Z.pow_add_r by lia. f_equal. lia. }
  assert (HD : 0 < 2 ^ (t - (53 - k))) by (apply Z.pow_pos_nonneg; lia).
  assert (HA : 0 < 2 ^ (53 - k)) by (apply Z.pow_pos_nonneg; lia).
  set (A := 2 ^ (53 - k)) in *. set (D := 2 ^ (t - (53 - k))) in *.
  assert (round_half_even (n * 2 ^ t) (Zpos d) <= c * 2 ^ t - 1); [| lia].
  apply round_half_even_below; [lia |].
  rewrite Hsplit.
  assert (H1 : 2 * (n * A) * D <= ((2 * (c * A) - 1) * Zpos d - 1) * D).
  { apply Z.mul_le_mono_nonneg_r; lia. }
  nia.
Qed.

Lemma fl_proper x y : (x == y)%Q -> fl x = fl y.
Proof. intros H. unfold fl. now rewrite (Qred_complete x y H). Qed.

Lemma Qred_sign x : (0 <= x)%Q -> 0 <= Qnum (Qred x).
Proof.
  intros H. rewrite <- (Qred_correct x) in H.
  unfold Qle in H. cbn in H. lia.
Qed.

(** Rounding keeps a number that is not negative between 0 and any integer
    bound that it does not exceed. *)
Lemma fl_between x c k :
  (0 <= x)%Q -> (x <= inject_Z c)%Q -> 0 <= k <= 52 -> c < 2 ^ k ->
  (0 <= fl x)%Q /\ (fl x <= inject_Z c)%Q.
Proof.
  intros H0 Hc Hk Hck.
  assert (Hc0 : 0 <= c).
  { rewrite Zle_Qle. eapply Qle_trans; eassumption. }
  pose proof (Qred_sign x H0) as Hsign.
  rewrite <- (Qred_correct x) in Hc.
  unfold fl. destruct (Qred x) as [n d]. cbn [Qnum Qden] in *.
  unfold Qle in Hc. cbn [Qnum Qden inject_Z] in Hc.
  destruct n as [| p | p]; [| | lia].
  - split; [apply Qle_refl | rewrite Zle_Qle in Hc0; exact Hc0].
  - assert (Hlt : Zpos p < 2 ^ k * Zpos d) by nia.
    split.
    + apply round_double_pos_nonneg with (k := k); [lia | lia | exact Hlt].
    + apply round_double_pos_le with (k := k); [lia | lia | exact Hlt | lia].
Qed.

Lemma round_half_even_near N D :
  0 < D -> - D <= 2 * (round_half_even N D * D - N) <= D.
Proof.
  intros HD. unfold round_half_even.
  pose proof (Z.div_mod N D ltac:(lia)) as Hdiv.
  pose proof (Z.mod_pos_bound N D HD) as Hmod.
  set (q := N / D) in *. set (r := N mod D) in *.
  assert (Hq : q * D - N = - r) by lia.
  assert (Hq1 : (q + 1) * D - N = D - r) by lia.
  destruct (Z.compare_spec (2 * r) D) as [Hc | Hc | Hc].
  - destruct (Z.even q); rewrite ?Hq, ?Hq1; lia.
  - rewrite Hq. lia.
  - rewrite Hq1. lia.
Qed.

Lemma round_double_pos_near n d k :
  0 < n -> 0 <= k <= 52 -> n < 2 ^ k * Zpos d ->
  (Qabs (round_double_pos n d - (n # d)) <= 1 # Z.to_pos (2 ^ (54 - k)))%Q.
Proof.
  intros Hn Hk Hlt.
  destruct (round_double_pos_shape n d k Hn Hk Hlt) as (t & Ht & ->).
  assert (Hpow : 0 < 2 ^ t) by (apply Z.pow_pos_nonneg; lia).
  assert (HM : 0 < 2 ^ (54 - k)) by (apply Z.pow_pos_nonneg; lia).
  assert (Hle : 2 ^ (54 - k) <= 2 * 2 ^ t).
  { change (2 * 2 ^ t) with (2 ^ 1 * 2 ^ t). rewrite <- Z.pow_add_r by lia.
    apply Z.pow_le_mono_r; lia. }
  pose proof (round_half_even_near (n * 2 ^ t) (Zpos d) ltac:(lia)) as Hnear.
  set (R := round_half_even (n * 2 ^ t) (Zpos d)) in *.
  set (P := 2 ^ t) in *. set (M := 2 ^ (54 - k)) in *.
  apply Qabs_Qle_condition. split.
  - unfold Qle, Qminus, Qplus, Qopp. cbn [Qnum Qden].
    rewrite Pos2Z.inj_mul, !Z2Pos.id by assumption. nia.
  - unfold Qle, Qminus, Qplus, Qopp. cbn [Qnum Qden].
    rewrite Pos2Z.inj_mul, !Z2Pos.id by assumption. nia.
Qed.

(** Rounding a number that is not negative and below [2^k] moves it by
    [2^(k-54)] at most. *)
Lemma fl_near x c k :
  (0 <= x)%Q -> (x <= inject_Z c)%Q -> 0 <= k <= 52 -> c < 2 ^ k ->
  (Qabs (fl x - x) <= 1 # Z.to_pos (2 ^ (54 - k)))%Q.
Proof.
  intros H0 Hc Hk Hck.
  pose proof (Qred_sign x H0) as Hsign.
  rewrite <- (Qred_correct x) in Hc.
  rewrite <- (Qred_correct x) at 2.
  unfold fl. destruct (Qred x) as [n d]. cbn [Qnum Qden] in *.
  unfold Qle in Hc. cbn [Qnum Qden inject_Z] in Hc.
  destruct n as [| p | p]; [| | lia].
  - apply Qabs_Qle_condition. split; unfold Qle; cbn; lia.
  - apply round_double_pos_near; [lia | lia | nia].
Qed.

(** A product below [10000 - 10000/2^53] rounds to a double below 10000. *)
Lemma fl_below_10000 x :
  (0 <= x)%Q -> (x <= 10000 - (10000 # 9007199254740992))%Q ->
  (0 <= fl x)%Q /\ (fl x < 10000)%Q.
Proof.
  intros H0 Hx.
  pose proof (Qred_sign x H0) as Hsign.
  rewrite <- (Qred_correct x) in Hx.
  unfold fl. destruct (Qred x) as [n d]. cbn [Qnum Qden] in *.
  unfold Qle in Hx. cbn in Hx.
  destruct n as [| p | p]; [| | lia].
  - split; [apply Qle_refl | reflexivity].
  - assert (Hlt : Zpos p < 2 ^ 14 * Zpos d) by (change (2 ^ 14) with 16384; lia).
    split.
    + apply round_double_pos_nonneg with (k := 14); [lia | lia | exact Hlt].
    + apply (round_double_pos_below (Zpos p) d 14 10000); [lia | lia | exact Hlt |].
      change (2 ^ (53 - 14)) with 549755813888. lia.
Qed.

(** [Math.floor(Math.random() * 10000) + 5000] for a double in [0, 1). *)
Lemma delay_bounds (r : Q) :
  (0 <= r)%Q -> (r <= 1 - (1 # 9007199254740992))%Q ->
  5000 <= Qfloor (fmul r (inject_Z 10000)) + 5000 < 15000.
Proof.
  intros H0 H1.
  assert (Hx0 : (0 <= r * inject_Z 10000)%Q).
  { apply Qmult_le_0_compat; [exact H0 | discriminate]. }
  assert (Hx1 : (r * inject_Z 10000 <= 10000 - (10000 # 9007199254740992))%Q).
  { revert H1. unfold Qle, Qmult, Qminus, Qplus, Qopp, inject_Z. cbn. lia. }
  destruct (fl_below_10000 _ Hx0 Hx1) as [Hlo Hhi]. unfold fmul.
  split.
  - assert (0 <= Qfloor (fl (r * inject_Z 10000))); [| lia].
    change 0 with (Qfloor (inject_Z 0)). now apply Qfloor_resp_le.
  - assert (Qfloor (fl (r * inject_Z 10000)) < 10000); [| lia].
    rewrite Zlt_Qlt.
    eapply Qle_lt_trans; [apply Qfloor_le | exact Hhi].
Qed.

(* ===================================================================== *)
(** ** The balance guard *)
(* ===================================================================== *)

Lemma dynamic_checkBalance_result env w h B V G P :
  rpc_getBalance env h (address w) = Ok B ->
  result (Dynamic.checkBalance env w V G P) h = Ok (V + G * P <=? B).
Proof.
  intros HB.
  unfold result, Dynamic.checkBalance, getBalance, call, log, emit, bind, ret.
  rewrite HB. reflexivity.
Qed.

Lemma static_checkBalance_result env w h B V G P :
  rpc_getBalance env h (address w) = Ok B ->
  result (Static.checkBalance env w V G P) h = Ok (V + G * P <=? B).
Proof.
  intros HB.
  unfold result, Static.checkBalance, getBalance, call, log, emit, bind, ret.
  rewrite HB. reflexivity.
Qed.

(** C4. With the balance [B] read from the network, the guard of either
    script returns [true] exactly when [B >= V + G * P], in exact integer
    arithmetic: [true] at [B = V + G * P], [false] one wei below. *)
Theorem checkBalance_exact :
  forall env w h B V G P,
    rpc_getBalance env h (address w) = Ok B ->
    (exists b,
        result (Dynamic.checkBalance env w V G P) h = Ok b
        /\ result (Static.checkBalance env w V G P) h = Ok b
        /\ (b = true <-> B >= V + G * P))
    /\ (B = V + G * P ->
        result (Dynamic.checkBalance env w V G P) h = Ok true)
    /\ (B = V + G * P - 1 ->
        result (Dynamic.checkBalance env w V G P) h = Ok false).
Proof.
  intros env w h B V G P HB.
  rewrite (dynamic_checkBalance_result _ _ _ _ V G P HB).
  rewrite (static_checkBalance_result _ _ _ _ V G P HB).
  repeat split.
  - exists (V + G * P <=? B). repeat split; try reflexivity.
    + intros Hb. apply Z.leb_le in Hb. lia.
    + intros Hge. apply Z.leb_le. lia.
  - intros ->. f_equal. apply Z.leb_le. lia.
  - intros ->. f_equal. apply Z.leb_gt. lia.
Qed.

Lemma checkBalance_exact_witness :
  rpc_getBalance Scenario.funded [] (address Scenario.alice) = Ok Scenario.oneEther
  /\ exists b,
       result (Dynamic.checkBalance Scenario.funded Scenario.alice
                                    20000000000000 240001 9000000) [] = Ok b
       /\ result (Static.checkBalance Scenario.funded Scenario.alice
                                      20000000000000 240001 9000000) [] = Ok b
       /\ (b = true <-> Scenario.oneEther >= 20000000000000 + 240001 * 9000000).
Proof.
  split; [reflexivity |].
  apply (checkBalance_exact Scenario.funded Scenario.alice []
           Scenario.oneEther 20000000000000 240001 9000000).
  reflexivity.
Defined.

(* ===================================================================== *)
(** ** The gas estimator *)
(* ===================================================================== *)

(** C5. A simulation that answers [X] gives the limit [X * 120 / 100],
    rounded down; a simulation that fails gives 350000. *)
Theorem estimateGasWithFallback_limit :
  forall env w tx h,
    (forall X, 0 <= X ->
               rpc_estimateGas env h tx = Ok X ->
               result (Dynamic.estimateGasWithFallback env w tx) h
               = Ok (X * 120 / 100))
    /\ (forall message,
           rpc_estimateGas env h tx = Throw message ->
           result (Dynamic.estimateGasWithFallback env w tx) h = Ok 350000).
Proof.
  intros env w tx h. split.
  - intros X HX Hest.
    unfold result, Dynamic.estimateGasWithFallback, estimateGas, call, log, emit,
      try_catch, bind, ret.
    rewrite Hest. cbn [fst]. f_equal.
    unfold bn_div, bn_mul. apply Z.quot_div_nonneg; lia.
  - intros message Hest.
    unfold result, Dynamic.estimateGasWithFallback, estimateGas, call, log, emit,
      try_catch, bind, ret.
    rewrite Hest. reflexivity.
Qed.

Lemma estimateGasWithFallback_limit_witness :
  (0 <= 200001
   /\ rpc_estimateGas Scenario.funded [] (Scenario.draft 20000000000000) = Ok 200001
   /\ result (Dynamic.estimateGasWithFallback Scenario.funded Scenario.alice
                (Scenario.draft 20000000000000)) [] = Ok 240001)
  /\ (rpc_estimateGas Scenario.broke [] (Scenario.draft 20000000000000)
      = Throw "insufficient funds for gas * price + value; estimateGas failed"
      /\ result (Dynamic.estimateGasWithFallback Scenario.broke Scenario.alice
                   (Scenario.draft 20000000000000)) [] = Ok 350000).
Proof.
  split.
  - split; [lia |]. split; [reflexivity |].
    apply (proj1 (estimateGasWithFallback_limit Scenario.funded Scenario.alice
                    (Scenario.draft 20000000000000) []) 200001).
    + lia.
    + reflexivity.
  - split; [reflexivity |].
    apply (proj2 (estimateGasWithFallback_limit Scenario.broke Scenario.alice
                    (Scenario.draft 20000000000000) [])
                 "insufficient funds for gas * price + value; estimateGas failed").
    reflexivity.
Defined.

(* ===================================================================== *)
(** ** The gas pricer *)
(* ===================================================================== *)

Lemma getDynamicGasPrice_result env h :
  result (Dynamic.getDynamicGasPrice env) h
  = Ok (Dynamic.quoteFor (rpc_getFeeData env h)).
Proof.
  unfold result, Dynamic.getDynamicGasPrice, getFeeData, call, log, emit, lift,
    try_catch, bind, ret.
  destruct (rpc_getFeeData env h) as [[b | ] | message]; reflexivity.
Qed.

(** C6, as stated, fails where the fee query answers without a base fee:
    the quote is then 0.016 gwei and 0.008 gwei, not twice the fallback of
    0.01 gwei. *)
Lemma getDynamicGasPrice_no_base_fee :
  let env := Scenario.node Scenario.oneEther None 200001
                           (Ok Scenario.sequentialOnce) (Ok "key1") in
  rpc_getFeeData env [] = Ok None
  /\ parseUnits (GAS_PRICE_GWEI Dynamic.config) gwei = Ok 10000000
  /\ result (Dynamic.getDynamicGasPrice env) [] = Ok (mkQuote 16000000 8000000)
  /\ result (Dynamic.getDynamicGasPrice env) [] <> Ok (mkQuote 10000000 10000000).
Proof.
  cbv zeta. repeat split; try reflexivity.
  rewrite getDynamicGasPrice_result. discriminate.
Qed.

(** C6, amended. The pricer never throws. When the fee query fails, both
    fees of the quote are the static fallback, the configured 0.01 gwei.
    When the query answers without a base fee, 0.008 gwei stands in for it:
    the max fee is 0.016 gwei and the priority fee 0.008 gwei. *)
Theorem getDynamicGasPrice_fallbacks :
  forall env h,
    (exists quote, result (Dynamic.getDynamicGasPrice env) h = Ok quote)
    /\ (forall message fallback,
           rpc_getFeeData env h = Throw message ->
           parseUnits (GAS_PRICE_GWEI Dynamic.config) gwei = Ok fallback ->
           result (Dynamic.getDynamicGasPrice env) h = Ok (mkQuote fallback fallback))
    /\ (rpc_getFeeData env h = Ok None ->
        result (Dynamic.getDynamicGasPrice env) h = Ok (mkQuote 16000000 8000000)).
Proof.
  intros env h. rewrite getDynamicGasPrice_result. repeat split.
  - eauto.
  - intros message fallback Hfee Hparse. rewrite Hfee.
    vm_compute in Hparse. injection Hparse as <-. reflexivity.
  - intros Hfee. rewrite Hfee. reflexivity.
Qed.

Lemma getDynamicGasPrice_fallbacks_witness :
  rpc_getFeeData (Scenario.nodeWithoutFees Scenario.oneEther) []
  = Throw "could not detect network"
  /\ parseUnits (GAS_PRICE_GWEI Dynamic.config) gwei = Ok 10000000
  /\ result (Dynamic.getDynamicGasPrice (Scenario.nodeWithoutFees Scenario.oneEther)) []
     = Ok (mkQuote 10000000 10000000).
Proof.
  split; [reflexivity |]. split; [reflexivity |].
  apply (proj1 (proj2 (getDynamicGasPrice_fallbacks
                         (Scenario.nodeWithoutFees Scenario.oneEther) []))
               "could not detect network" 10000000); reflexivity.
Defined.

(* ===================================================================== *)
(** ** The single swap of the static script *)
(* ===================================================================== *)

Lemma flat_map_singleton {A} (l : list A) : flat_map (fun e => [e]) l = l.
Proof. induction l as [| x l IH]; cbn; [reflexivity | now rewrite IH]. Qed.

Lemma static_createSwap_raw env w V recipient :
  observes (fun e => [e]) (Static.createSwap env w V recipient)
           (builtOnRawEstimate w V).
Proof.
  unfold Static.createSwap, Static.checkBalance. open_calls.
  repeat obs_step.
  all: intros tx Htx; try discriminate Htx.
  injection Htx as <-. cbn [gasLimit maxFeePerGas value set_fees set_gasLimit].
  repeat split.
  do 3 eexists. cbn [app]. repeat split.
  - right. left. reflexivity.
  - do 2 right. left. reflexivity.
  - do 4 right. left. reflexivity.
  - apply negb_false_iff, Z.leb_le in Hcase. exact Hcase.
Qed.

(** C10. Whenever the static script builds a single swap, the guard has
    compared the balance with the cost at the raw estimate [X], while the
    request carries the gas limit 350000.  So there are balances that pass
    the guard and are below the cost of the request at its gas limit: with
    such a balance every swap is submitted with the limit 350000, and it is
    the node that refuses it. *)
Theorem static_guard_misses_gas_limit :
  (forall env w V recipient h tx,
      result (Static.createSwap env w V recipient) h = Ok tx ->
      gasLimit tx = Some 350000
      /\ maxFeePerGas tx = Some 1200000
      /\ value tx = V
      /\ exists request X B,
           In (EvEstimateGas request (Ok X))
              (events (Static.createSwap env w V recipient) h)
           /\ In (EvGetBalance (address w) (Ok B))
                 (events (Static.createSwap env w V recipient) h)
           /\ In (EvLog Console (MTotalCostLine (V + X * 1200000)))
                 (events (Static.createSwap env w V recipient) h)
           /\ V + X * 1200000 <= B)
  /\ (exists env w V recipient B tx,
         result (Static.createSwap env w V recipient) [] = Ok tx
         /\ balanceChecks (events (Static.createSwap env w V recipient) []) = [B]
         /\ B < value tx + 350000 * 1200000)
  /\ (let run := Static.processWallet Scenario.tight "key1" 0 Scenario.singleThrice in
      result run [] = Ok (mkCounters 0 3)
      /\ balanceChecks (events run [])
         = [20240001200000; 20240001200000; 20240001200000]
      /\ map gasLimit (sent (events run []))
         = [Some 350000; Some 350000; Some 350000]
      /\ errorsLogged (events run [])
         = ["insufficient funds for intrinsic transaction cost";
            "insufficient funds for intrinsic transaction cost";
            "insufficient funds for intrinsic transaction cost"]).
Proof.
  split; [| split].
  - intros env w V recipient h tx Htx.
    pose proof (static_createSwap_raw env w V recipient h) as H.
    rewrite flat_map_singleton in H. exact (H tx Htx).
  - exists Scenario.tight, Scenario.alice, 20000000000000, "0xA11CE",
      20240001200000.
    eexists. split; [reflexivity | split; reflexivity].
  - cbv zeta. repeat split; vm_compute; reflexivity.
Qed.

Lemma static_guard_misses_gas_limit_witness :
  result (Static.createSwap Scenario.tight Scenario.alice 20000000000000 "0xA11CE") []
  = Ok (set_fees (set_gasLimit (Scenario.draft 20000000000000) 350000)
                 1200000 1200000)
  /\ gasLimit (set_fees (set_gasLimit (Scenario.draft 20000000000000) 350000)
                        1200000 1200000) = Some 350000.
Proof.
  split; [reflexivity |].
  apply (proj1 static_guard_misses_gas_limit
               Scenario.tight Scenario.alice 20000000000000 "0xA11CE" []).
  reflexivity.
Defined.

(* ===================================================================== *)
(** ** The wallet runner *)
(* ===================================================================== *)

Lemma observes_any {A X} (f : Event -> list X) (m : M A)
      (Q : Res A -> list X -> Prop) :
  (forall r o, Q r o) -> observes f m Q.
Proof. intros H h. apply H. Qed.

(** A step through code whose callees are not known. *)
Ltac obs_step_any :=
  first
    [ obs_step
    | lazymatch goal with
      | |- match ?x with Ok _ => _ | Throw _ => _ end =>
          let E := fresh "Hcase" in destruct x eqn:E
      | |- observes _ _ _ => apply observes_any; intros [? | ?] ?
      end; cbv beta iota zeta ].

Section Runner.
Variable env : Env.
Variable config : Config.
Variable createSwap : Wallet -> Z -> Address -> M TxRequest.
Variable createSequentialSwap : Wallet -> Z -> Address -> M TxRequest.
Variable logTransactionDetails : TxRequest -> M unit.

Let attempt :=
  Common.swapAttempt env config createSwap createSequentialSwap
                     logTransactionDetails.
Let iteration :=
  Common.swapIteration env config createSwap createSequentialSwap
                       logTransactionDetails.
Let loop :=
  Common.swapLoop env config createSwap createSequentialSwap
                  logTransactionDetails.

Let silent : Event -> list unit := fun _ => [].

Lemma swapAttempt_counts_one wallet userConfig i c :
  observes silent (attempt wallet userConfig i c)
           (fun r _ => forall c', r = Ok c' -> countsOne c c').
Proof.
  unfold attempt, Common.swapAttempt. open_calls.
  repeat obs_step_any.
  all: intros c' Hc'; try discriminate Hc'.
  all: injection Hc' as <-; first [left; reflexivity | right; reflexivity].
Qed.

Lemma randomDelay_returns :
  observes silent (Common.randomDelay env) (fun r _ => r = Ok tt).
Proof.
  unfold Common.randomDelay, random. open_calls.
  repeat obs_step. reflexivity.
Qed.

Lemma swapIteration_counts_one wallet userConfig i c :
  observes silent (iteration wallet userConfig i c)
           (fun r _ => exists c', r = Ok c' /\ countsOne c c').
Proof.
  unfold iteration, Common.swapIteration. open_calls.
  do 4 obs_step.
  apply observes_try_catch, observes_bind.
  eapply observes_cut; [apply swapAttempt_counts_one |].
  intros [c' | message] o Hc'; cbv beta iota.
  - apply observes_bind.
    eapply observes_cut; [apply randomDelay_returns |].
    intros r o' ->. cbv beta iota. obs_step.
    exists c'. split; [reflexivity | apply Hc'; reflexivity].
  - repeat obs_step. eexists. split; [reflexivity |].
    right. reflexivity.
Qed.

Lemma countsOne_total c c' : countsOne c c' -> total c' = total c + 1.
Proof. intros [-> | ->]; unfold total; cbn; lia. Qed.

Lemma swapLoop_counts wallet userConfig remaining :
  forall i c,
    observes silent (loop wallet userConfig remaining i c)
             (fun r _ => exists c', r = Ok c'
                                    /\ total c' = total c + Z.of_nat remaining).
Proof.
  induction remaining as [| k IH]; intros i c.
  - cbn. obs_step. exists c. split; [reflexivity | lia].
  - cbn [loop Common.swapLoop]. apply observes_bind.
    eapply observes_cut; [apply swapIteration_counts_one |].
    intros r o (c1 & -> & H1). apply countsOne_total in H1. cbv beta iota.
    eapply observes_cut; [apply IH |].
    intros r' o' (c2 & -> & H2). cbv beta.
    exists c2. split; [reflexivity | lia].
Qed.

Lemma processWallet_counts privateKey walletIndex userConfig h addr :
  0 <= numberOfSwaps userConfig ->
  wallet_of_key env privateKey = Ok addr ->
  exists c,
    result (Common.processWallet env config createSwap createSequentialSwap
              logTransactionDetails privateKey walletIndex userConfig) h = Ok c
    /\ successCount c + failCount c = numberOfSwaps userConfig.
Proof.
  intros Hn Hkey.
  assert (H : observes silent
                (Common.processWallet env config createSwap createSequentialSwap
                   logTransactionDetails privateKey walletIndex userConfig)
                (fun r _ => exists c, r = Ok c
                                      /\ total c = numberOfSwaps userConfig)).
  { unfold Common.processWallet. open_calls. rewrite Hkey.
    do 6 obs_step.
    eapply observes_cut; [apply swapLoop_counts |].
    intros r o (c & -> & Hc). cbv beta.
    exists c. split; [reflexivity |].
    rewrite Hc. unfold total. cbn. lia. }
  exact (H h).
Qed.

(** The events of one iteration: the two opening lines, the attempt, and
    then either the pause or the error line. *)
Lemma swapIteration_events wallet userConfig i c h :
  let started := [EvLog Console MDivider;
                  EvLog Info (MStartingSwap (i + 1) (numberOfSwaps userConfig))] in
  events (iteration wallet userConfig i c) h
  = started
      ++ events (attempt wallet userConfig i c) (h ++ started)
      ++ match result (attempt wallet userConfig i c) (h ++ started) with
         | Ok _ =>
             Common.pauseEvents
               (math_random env
                  ((h ++ started)
                     ++ events (attempt wallet userConfig i c) (h ++ started)))
         | Throw message => [EvLog Error (MErrorInSwap (i + 1) message)]
         end.
Proof.
  cbv zeta.
  unfold iteration, Common.swapIteration, Common.randomDelay, Common.pauseEvents,
    divider, random, log, sleep, ask, emit, events, result.
  fold attempt.
  unfold bind at 1 2. cbn [app fst snd].
  rewrite <- app_assoc. cbn [app].
  unfold try_catch, bind, ret.
  destruct (attempt wallet userConfig i c _) as [[c' | message] ev]; cbn;
    rewrite ?app_nil_r; reflexivity.
Qed.

End Runner.

(** C3. Every iteration of the loop adds one to exactly one of the two
    counters, also when the cycle throws; so a wallet whose key is accepted
    gets its counters back, and together they count every configured swap:
    [successCount + failCount = numberOfSwaps], in both scripts. *)
Theorem processWallet_counts_every_swap :
  forall env privateKey walletIndex userConfig h addr,
    0 <= numberOfSwaps userConfig ->
    wallet_of_key env privateKey = Ok addr ->
    (exists c,
        result (Dynamic.processWallet env privateKey walletIndex userConfig) h = Ok c
        /\ successCount c + failCount c = numberOfSwaps userConfig)
    /\ (exists c,
           result (Static.processWallet env privateKey walletIndex userConfig) h = Ok c
           /\ successCount c + failCount c = numberOfSwaps userConfig)
    /\ (forall wallet i c h',
           (exists c', result (Dynamic.swapIteration env wallet userConfig i c) h' = Ok c'
                       /\ countsOne c c')
           /\ (exists c', result (Static.swapIteration env wallet userConfig i c) h' = Ok c'
                          /\ countsOne c c')).
Proof.
  intros env privateKey walletIndex userConfig h addr Hn Hkey.
  split; [| split].
  - eapply processWallet_counts; eassumption.
  - eapply processWallet_counts; eassumption.
  - intros wallet i c h'. split.
    + apply (swapIteration_counts_one env Dynamic.config (Dynamic.createSwap env)
               (Dynamic.createSequentialSwap env) Dynamic.logTransactionDetails
               wallet userConfig i c h').
    + apply (swapIteration_counts_one env Static.config (Static.createSwap env)
               (Static.createSequentialSwap env) Static.logTransactionDetails
               wallet userConfig i c h').
Qed.

Lemma processWallet_counts_every_swap_witness :
  0 <= numberOfSwaps Scenario.singleThrice
  /\ wallet_of_key Scenario.broke "key1" = Ok "key1"
  /\ exists c,
       result (Dynamic.processWallet Scenario.broke "key1" 0 Scenario.singleThrice) []
       = Ok c
       /\ successCount c + failCount c = 3.
Proof.
  split; [cbn; lia |]. split; [reflexivity |].
  refine (proj1 (processWallet_counts_every_swap Scenario.broke "key1" 0
                   Scenario.singleThrice [] "key1" _ _)).
  - cbn. lia.
  - reflexivity.
Defined.

(** C8, as stated, fails for a cycle that throws: three single swaps refused
    by the balance guard are three failed cycles, and no pause follows any
    of them. *)
Lemma no_pause_after_thrown_cycle :
  let run := Dynamic.processWallet Scenario.broke "key1" 0 Scenario.singleThrice in
  result run [] = Ok (mkCounters 0 3)
  /\ errorsLogged (events run [])
     = ["Insufficient balance for transaction";
        "Insufficient balance for transaction";
        "Insufficient balance for transaction"]
  /\ sleeps (events run []) = [].
Proof. cbv zeta. repeat split; vm_compute; reflexivity. Qed.

(** For [Math.random() = 0.7], the double nearest to 7/10, the product is
    the double 7000: the pause is 12000 ms and the line says 12 seconds. *)
Example pauseEvents_at_seven_tenths :
  let r := (6305039478318694 # 9007199254740992)%Q in
  Common.pauseEvents r = [EvRandom r; EvLog Info (MWaiting 12); EvSleep 12000].
Proof. vm_compute. reflexivity. Qed.

(** C8, amended. An iteration whose attempt returns (a success, or a single
    swap whose receipt reports a failure) ends with a pause of
    [floor(r * 10000) + 5000] milliseconds, the product being that of
    doubles, for the double [r] that [Math.random] drew from [0, 1): at
    least 5000 and below 15000.  An
    iteration whose attempt throws ends with the error line, without a
    pause. *)
Theorem pause_ends_returned_cycle :
  forall env wallet userConfig i c h,
    random_in_range env ->
    cycleEnds (Dynamic.swapAttempt env wallet userConfig i c)
              (Dynamic.swapIteration env wallet userConfig i c)
              i (numberOfSwaps userConfig) h
    /\ cycleEnds (Static.swapAttempt env wallet userConfig i c)
                 (Static.swapIteration env wallet userConfig i c)
                 i (numberOfSwaps userConfig) h.
Proof.
  intros env wallet userConfig i c h Hrandom.
  split.
  - unfold cycleEnds, Dynamic.swapIteration, Dynamic.swapAttempt.
    eexists. split; [apply swapIteration_events |].
    destruct (result _ _) as [c' | message]; [| reflexivity].
    do 2 eexists. repeat split; try apply Hrandom; try reflexivity;
      apply delay_bounds; apply Hrandom.
  - unfold cycleEnds, Static.swapIteration, Static.swapAttempt.
    eexists. split; [apply swapIteration_events |].
    destruct (result _ _) as [c' | message]; [| reflexivity].
    do 2 eexists. repeat split; try apply Hrandom; try reflexivity;
      apply delay_bounds; apply Hrandom.
Qed.

Lemma pause_ends_returned_cycle_witness :
  random_in_range Scenario.funded
  /\ cycleEnds (Dynamic.swapAttempt Scenario.funded Scenario.alice
                  Scenario.singleThrice 0 (mkCounters 0 0))
               (Dynamic.swapIteration Scenario.funded Scenario.alice
                  Scenario.singleThrice 0 (mkCounters 0 0))
               0 3 [].
Proof.
  assert (H : random_in_range Scenario.funded).
  { intros h. split; vm_compute; congruence. }
  split; [exact H |].
  exact (proj1 (pause_ends_returned_cycle Scenario.funded Scenario.alice
                  Scenario.singleThrice 0 (mkCounters 0 0) [] H)).
Defined.

(* ===================================================================== *)
(** ** The sequence of five transactions *)
(* ===================================================================== *)

(** C2. In every run of the sequence of either script the nonce is read
    once, and the transactions submitted after a read of [N] carry [N],
    [N+1], ... in the order of submission; a run that completes has
    submitted exactly [N], [N+1], [N+2], [N+3], [N+4].  And both scripts do
    complete in that way on a network that answers every call, when the
    recipient is an address and the amount a [uint256]. *)
Theorem sequential_swap_nonces :
  forall env w amount recipient h,
    inNonceOrder
      (result (Dynamic.createSequentialSwap env w amount recipient) h)
      (nonceUses (events (Dynamic.createSequentialSwap env w amount recipient) h))
    /\ inNonceOrder
         (result (Static.createSequentialSwap env w amount recipient) h)
         (nonceUses (events (Static.createSequentialSwap env w amount recipient) h))
    /\ (obliging env -> encodable recipient amount ->
        completesInOrder
          (result (Dynamic.createSequentialSwap env w amount recipient) h)
          (nonceUses (events (Dynamic.createSequentialSwap env w amount recipient) h))
        /\ completesInOrder
             (result (Static.createSequentialSwap env w amount recipient) h)
             (nonceUses (events (Static.createSequentialSwap env w amount recipient) h))).
Proof.
  intros env w amount recipient h. split; [| split].
  - apply dynamic_nonces.
  - apply static_nonces.
  - intros Hobliging _. split.
    + apply (dynamic_completes env Hobliging w amount recipient h).
    + apply (static_completes env Hobliging w amount recipient h).
Qed.

Lemma sequential_swap_nonces_witness :
  obliging MoreScenarios.obligingNode
  /\ encodable (address MoreScenarios.bob) 20000000000000
  /\ (let run := Dynamic.createSequentialSwap MoreScenarios.obligingNode
                   MoreScenarios.bob 20000000000000 (address MoreScenarios.bob) in
      is_ok (result run []) = true
      /\ exists N, nonceUses (events run []) = NonceRead (Ok N) :: consecutive N 5)
  /\ (let run := Static.createSequentialSwap MoreScenarios.obligingNode
                   MoreScenarios.bob 20000000000000 (address MoreScenarios.bob) in
      is_ok (result run []) = true
      /\ exists N, nonceUses (events run []) = NonceRead (Ok N) :: consecutive N 5).
Proof.
  assert (Hobliging : obliging MoreScenarios.obligingNode).
  { repeat split; intros; try reflexivity; try (eexists; reflexivity);
      try (cbn; lia).
    - eexists. split; [reflexivity | unfold uint256; split; [lia | reflexivity]].
    - eexists. split; [reflexivity | lia]. }
  assert (Hencodable : encodable (address MoreScenarios.bob) 20000000000000).
  { split; [reflexivity | unfold uint256; split; [lia | reflexivity]]. }
  split; [exact Hobliging |]. split; [exact Hencodable |].
  exact (proj2 (proj2 (sequential_swap_nonces MoreScenarios.obligingNode
                         MoreScenarios.bob 20000000000000
                         (address MoreScenarios.bob) []))
           Hobliging Hencodable).
Defined.

(** On that network both scripts read the nonce 7 and submit 7, 8, 9, 10
    and 11. *)
Example both_sequences_from_seven :
  map nonce (sent (events (Dynamic.createSequentialSwap MoreScenarios.obligingNode
                             MoreScenarios.bob 20000000000000
                             (address MoreScenarios.bob)) []))
  = [Some 7; Some 8; Some 9; Some 10; Some 11]
  /\ map nonce (sent (events (Static.createSequentialSwap MoreScenarios.obligingNode
                                MoreScenarios.bob 20000000000000
                                (address MoreScenarios.bob)) []))
     = [Some 7; Some 8; Some 9; Some 10; Some 11].
Proof. split; vm_compute; reflexivity. Qed.

(** C7, as stated, fails for the dynamic script: a completed sequence has
    asked for the fees once, not once per step, and its five transactions
    carry that one quote although the base fee of the node has moved on. *)
Lemma fees_not_requoted_per_step :
  let run := Dynamic.createSequentialSwap Scenario.funded Scenario.alice
               20000000000000 "0xA11CE" in
  is_ok (result run []) = true
  /\ feeUses (events run [])
     = FeeQuery (Ok (Some 1000006))
         :: repeat (FeeCarried (Some 9000006) (Some 8000000)) 5
  /\ rpc_getFeeData Scenario.funded (events run []) = Ok (Some 1000063).
Proof. cbv zeta. repeat split; vm_compute; reflexivity. Qed.

(** C7, amended. Both scripts use one quote for the whole sequence.  The
    dynamic script asks the network for the fees at most once, before the
    first transaction, and every transaction of the sequence carries the
    quote of that one answer; the static script asks for nothing and every
    transaction carries the configured gas price. *)
Theorem one_quote_per_sequence :
  forall env w amount recipient h,
    quotedOnce
      (feeUses (events (Dynamic.createSequentialSwap env w amount recipient) h))
    /\ fixedPrice 1200000
         (feeUses (events (Static.createSequentialSwap env w amount recipient) h))
    /\ parseUnits (GAS_PRICE_GWEI Static.config) gwei = Ok 1200000.
Proof.
  intros env w amount recipient h. repeat split.
  - apply (dynamic_fees env w amount recipient h).
  - apply (static_fees env w amount recipient h).
Qed.

(** C1 fails on the code: no run of the sequence of either script runs the
    balance guard.  With an empty account the first transaction is built
    and handed to [sendTransaction]; the cycle fails with the error of the
    node, not with the guard's, and [failCount] becomes 1.  The single swap
    of the same script does run the guard and submits nothing. *)
Theorem sequential_swap_unguarded :
  (forall env w amount recipient h,
      balanceChecks (events (Dynamic.createSequentialSwap env w amount recipient) h) = []
      /\ balanceChecks (events (Static.createSequentialSwap env w amount recipient) h) = [])
  /\ (let run := Dynamic.processWallet Scenario.broke "key1" 0 Scenario.sequentialOnce in
      result run [] = Ok (mkCounters 0 1)
      /\ balanceChecks (events run []) = []
      /\ map nonce (sent (events run [])) = [Some 7]
      /\ errorsLogged (events run [])
         = ["insufficient funds for intrinsic transaction cost"])
  /\ (let run := Static.processWallet Scenario.broke "key1" 0 Scenario.sequentialOnce in
      result run [] = Ok (mkCounters 0 1)
      /\ balanceChecks (events run []) = []
      /\ map nonce (sent (events run [])) = [Some 7]
      /\ errorsLogged (events run [])
         = ["insufficient funds for intrinsic transaction cost"])
  /\ (let run := Dynamic.processWallet Scenario.broke "key1" 0
                   (mkUserConfig 1 (Some "0.00002") false) in
      result run [] = Ok (mkCounters 0 1)
      /\ balanceChecks (events run []) = [0]
      /\ sent (events run []) = []
      /\ errorsLogged (events run []) = ["Insufficient balance for transaction"]).
Proof.
  split; [| cbv zeta; repeat split; vm_compute; reflexivity].
  intros env w amount recipient h. split.
  - apply (dynamic_unguarded env w amount recipient h).
  - apply (static_unguarded env w amount recipient h).
Qed.

(* ===================================================================== *)
(** ** The summary *)
(* ===================================================================== *)

(** C9 fails on the code: the success rate is computed without a guard.
    With no attempts at all, from an empty key file or from
    [numberOfSwaps = 0], the quotient is 0/0, and the summary prints
    "NaN%" (it is printed, and the process does not exit with an error). *)
Theorem success_rate_unguarded :
  Common.successRate 0 0 = NaN
  /\ (let run := Dynamic.main Scenario.noWallets in
      result run [] = Ok tt
      /\ successRates (events run []) = ["NaN%"]
      /\ exits (events run []) = [])
  /\ (let run := Dynamic.main Scenario.noSwaps in
      result run [] = Ok tt
      /\ successRates (events run []) = ["NaN%"]
      /\ exits (events run []) = []).
Proof. cbv zeta. repeat split; vm_compute; reflexivity. Qed.

(* ===================================================================== *)
(** ** More on the sequence of five transactions *)
(* ===================================================================== *)

Lemma dynamic_steps env w amount recipient :
  observes stepUse (Dynamic.createSequentialSwap env w amount recipient)
           (fun r uses => exists k, oneByOne k uses /\ (k <= 5)%nat
                                    /\ (is_ok r = true -> k = 5%nat)).
Proof.
  unfold Dynamic.createSequentialSwap. open_calls.
  run_sequence.
  all: cbn [app stepUse is_ok]; eexists;
    (split; [repeat constructor | split; [lia | first [discriminate | reflexivity]]]).
Qed.

Lemma static_steps env w amount recipient :
  observes stepUse (Static.createSequentialSwap env w amount recipient)
           (fun r uses => exists k, oneByOne k uses /\ (k <= 5)%nat
                                    /\ (is_ok r = true -> k = 5%nat)).
Proof.
  unfold Static.createSequentialSwap. open_calls.
  run_sequence.
  all: cbn [app stepUse is_ok]; eexists;
    (split; [repeat constructor | split; [lia | first [discriminate | reflexivity]]]).
Qed.

Lemma dynamic_plan env w amount recipient :
  observes seqUse (Dynamic.createSequentialSwap env w amount recipient)
           (fun r uses =>
              is_ok r = true ->
              exists t1 t2 u0 w0 u1 w1 u2 w2 w3 u4 w4,
                uses = sequencePlan Dynamic.config recipient amount
                                    t1 t2 u0 w0 u1 w1 u2 w2 w3 u4 w4).
Proof.
  unfold Dynamic.createSequentialSwap. open_calls.
  run_sequence.
  all: cbn [is_ok]; intros Hok; try discriminate Hok.
  do 11 eexists. reflexivity.
Qed.

Lemma static_plan env w amount recipient :
  observes seqUse (Static.createSequentialSwap env w amount recipient)
           (fun r uses =>
              is_ok r = true ->
              exists t1 t2 u0 w0 u1 w1 u2 w2 w3 u4 w4,
                uses = sequencePlan Static.config recipient amount
                                    t1 t2 u0 w0 u1 w1 u2 w2 w3 u4 w4).
Proof.
  unfold Static.createSequentialSwap. open_calls.
  run_sequence.
  all: cbn [is_ok]; intros Hok; try discriminate Hok.
  do 11 eexists. reflexivity.
Qed.

(** The estimator, with its simulation in view. *)
Lemma estimateGasWithFallback_observed {X} (f : Event -> list X) env w tx :
  (forall x y, f (EvLog Info (MGasEstimated x y)) = []) ->
  (forall s, f (EvLog Warning (MText s)) = []) ->
  (forall g, f (EvLog Info (MFallbackGasLimit g)) = []) ->
  observes f (Dynamic.estimateGasWithFallback env w tx)
           (fun r o => exists answer, r = Ok (gasLimitFor answer)
                                      /\ o = f (EvEstimateGas tx answer)).
Proof.
  intros Hok Hwarn Hfall. unfold Dynamic.estimateGasWithFallback. open_calls.
  repeat obs_step; rewrite ?Hok, ?Hwarn, ?Hfall, ?app_nil_r;
    eexists; (split; [| reflexivity]); reflexivity.
Qed.

Ltac obs_helper_gas :=
  lazymatch goal with
  | |- observes ?f (bind (Dynamic.estimateGasWithFallback _ _ _) _) _ =>
      apply observes_bind;
      eapply observes_cut;
      [ apply estimateGasWithFallback_observed; reflexivity
      | let a := fresh "simulation" in intros ? ? [a [-> ->]] ]
  end; cbv beta iota zeta.

Lemma dynamic_gas env w amount recipient :
  observes gasUse (Dynamic.createSequentialSwap env w amount recipient)
           (fun r uses => exists k, estimatedThenSent k uses /\ (k <= 5)%nat
                                    /\ (is_ok r = true -> k = 5%nat)).
Proof.
  unfold Dynamic.createSequentialSwap. open_calls.
  repeat first [obs_helper_gas | obs_helper | obs_step].
  all: cbn [app gasUse is_ok]; eexists;
    (split; [repeat (constructor; [reflexivity |]); constructor
            | split; [lia | first [discriminate | reflexivity]]]).
Qed.

Lemma static_gas env w amount recipient :
  observes sentOf (Static.createSequentialSwap env w amount recipient)
           (fun r txs => exists k, map gasLimit txs = firstn k staticGasLimits
                                   /\ (k <= 5)%nat
                                   /\ (is_ok r = true -> k = 5%nat)).
Proof.
  unfold Static.createSequentialSwap. open_calls.
  run_sequence.
  all: cbn [app sentOf is_ok map gasLimit Static.stepTx];
    count_to_five ltac:(fun k => exists k;
      split; [reflexivity | split; [lia | first [discriminate | reflexivity]]]).
Qed.

(* ===================================================================== *)
(** ** More on the single swap *)
(* ===================================================================== *)

Lemma observes_both {A X} (f : Event -> list X) (m : M A)
      (Q : Res A -> list X -> Prop) (P : Res A -> Prop) :
  observes f m Q -> (forall h, P (result m h)) ->
  observes f m (fun r o => Q r o /\ P r).
Proof. intros HQ HP h. split; [apply HQ | apply HP]. Qed.

Lemma dynamic_createSwap_guarded env w V recipient :
  observes balanceCheck (Dynamic.createSwap env w V recipient)
           (fun r checks =>
              forall tx, r = Ok tx ->
                exists B g f,
                  checks = [B]
                  /\ gasLimit tx = Some g /\ maxFeePerGas tx = Some f
                  /\ value tx + g * f <= B).
Proof.
  unfold Dynamic.createSwap, Dynamic.checkBalance. open_calls.
  run_sequence.
  all: intros tx Htx; try discriminate Htx.
  injection Htx as <-. do 3 eexists.
  cbn [app balanceCheck gasLimit maxFeePerGas value set_fees set_gasLimit].
  repeat split.
  apply negb_false_iff, Z.leb_le in Hcase. exact Hcase.
Qed.

Lemma dynamic_createSwap_ready env w V recipient :
  observes nonceUse (Dynamic.createSwap env w V recipient)
           (fun r uses => uses = [] /\ forall tx, r = Ok tx -> readyToSend tx).
Proof.
  unfold Dynamic.createSwap, Dynamic.checkBalance. open_calls.
  run_sequence.
  all: split; [reflexivity |]; intros tx Htx; try discriminate Htx.
  injection Htx as <-. split; [reflexivity |]. do 3 eexists. repeat split.
Qed.

Lemma static_createSwap_ready env w V recipient :
  observes nonceUse (Static.createSwap env w V recipient)
           (fun r uses => uses = [] /\ forall tx, r = Ok tx -> readyToSend tx).
Proof.
  unfold Static.createSwap, Static.checkBalance. open_calls.
  run_sequence.
  all: split; [reflexivity |]; intros tx Htx; try discriminate Htx.
  injection Htx as <-. split; [reflexivity |]. do 3 eexists. repeat split.
Qed.

Section SingleSwap.
Variable env : Env.
Variable config : Config.
Variable createSwap : Wallet -> Z -> Address -> M TxRequest.
Variable createSequentialSwap : Wallet -> Z -> Address -> M TxRequest.
Variable logTransactionDetails : TxRequest -> M unit.

Hypothesis createSwap_ready :
  forall w V recipient,
    observes nonceUse (createSwap w V recipient)
             (fun r uses => uses = [] /\ forall tx, r = Ok tx -> readyToSend tx).

Hypothesis details_logged :
  forall tx n, readyToSend tx ->
    exists level msg, logTransactionDetails (set_nonce tx n) = log level msg.

Lemma single_swap_nonce wallet userConfig i c :
  sequentialSwap userConfig = false ->
  observes nonceUse
           (Common.swapAttempt env config createSwap createSequentialSwap
                               logTransactionDetails wallet userConfig i c)
           freshNonce.
Proof.
  intros Hsingle. unfold Common.swapAttempt. rewrite Hsingle. open_calls.
  do 3 obs_step_any.
  2: { split; [left; reflexivity | discriminate]. }
  apply observes_bind.
  eapply observes_cut; [apply createSwap_ready |].
  intros [tx | message] o [-> Hready]; cbv beta iota.
  2: { split; [left; reflexivity | discriminate]. }
  specialize (Hready tx eq_refl).
  do 2 obs_step.
  2: { split; [right; left; eexists; reflexivity | discriminate]. }
  lazymatch goal with
  | |- context [set_nonce tx ?n] =>
      destruct (details_logged tx n Hready) as (level & msg & ->)
  end.
  repeat obs_step.
  all: cbn [app nonceUse nonce set_nonce is_ok];
    (split; [right; right; eexists; reflexivity
            | first [discriminate | intros _; eexists; reflexivity]]).
Qed.

Hypothesis createSwap_sends_nothing :
  forall w V recipient,
    observes stepUse (createSwap w V recipient) (fun _ uses => uses = []).

(** A single swap that is counted was submitted once and awaited, and its
    receipt decides the counter. *)
Lemma single_swap_receipt wallet userConfig i c :
  sequentialSwap userConfig = false ->
  observes stepUse
           (Common.swapAttempt env config createSwap createSequentialSwap
                               logTransactionDetails wallet userConfig i c)
           (fun r uses =>
              forall c', r = Ok c' ->
                exists hash status,
                  uses = [Submitted (Ok hash); Awaited hash (Ok status)]
                  /\ c' = if status =? 1
                          then mkCounters (successCount c + 1) (failCount c)
                          else mkCounters (successCount c) (failCount c + 1)).
Proof.
  intros Hsingle. unfold Common.swapAttempt. rewrite Hsingle. open_calls.
  do 3 obs_step_any.
  2: { intros c' Hc'. discriminate Hc'. }
  apply observes_bind.
  eapply observes_cut.
  { apply observes_both with (P := fun r => forall tx, r = Ok tx -> readyToSend tx);
      [apply createSwap_sends_nothing |].
    intros h. apply (createSwap_ready _ _ _ h). }
  intros [tx | message] o [-> Hready]; cbv beta iota.
  2: { intros c' Hc'. discriminate Hc'. }
  specialize (Hready tx eq_refl).
  do 2 obs_step.
  2: { intros c' Hc'. discriminate Hc'. }
  lazymatch goal with
  | |- context [set_nonce tx ?n] =>
      destruct (details_logged tx n Hready) as (level & msg & ->)
  end.
  repeat obs_step.
  all: intros c' Hc'; try discriminate Hc'.
  all: injection Hc' as <-; do 2 eexists; cbn [app stepUse];
    (split; [reflexivity |]);
    lazymatch goal with
    | H : (_ =? 1) = _ |- _ => rewrite H; reflexivity
    end.
Qed.

End SingleSwap.

Lemma dynamic_details_logged tx n :
  readyToSend tx ->
  exists level msg, Dynamic.logTransactionDetails (set_nonce tx n) = log level msg.
Proof.
  intros [_ (g & f & p & Hg & Hf & Hp)].
  unfold Dynamic.logTransactionDetails. cbn [gasLimit maxFeePerGas maxPriorityFeePerGas set_nonce].
  rewrite Hg, Hf, Hp. eauto.
Qed.

Lemma static_details_logged tx n :
  readyToSend tx ->
  exists level msg, Static.logTransactionDetails (set_nonce tx n) = log level msg.
Proof.
  intros [_ (g & f & p & Hg & Hf & Hp)].
  unfold Static.logTransactionDetails. cbn [gasLimit maxFeePerGas maxPriorityFeePerGas set_nonce].
  rewrite Hg, Hf, Hp. eauto.
Qed.

Lemma dynamic_createSwap_sends_nothing env w V recipient :
  observes stepUse (Dynamic.createSwap env w V recipient) (fun _ uses => uses = []).
Proof.
  unfold Dynamic.createSwap, Dynamic.checkBalance. open_calls.
  run_sequence. all: reflexivity.
Qed.

Lemma static_createSwap_sends_nothing env w V recipient :
  observes stepUse (Static.createSwap env w V recipient) (fun _ uses => uses = []).
Proof.
  unfold Static.createSwap, Static.checkBalance. open_calls.
  run_sequence. all: reflexivity.
Qed.

(* ===================================================================== *)
(** ** More on the gas helpers *)
(* ===================================================================== *)

Lemma split_head_tail sep s :
  exists x xs, split sep s = x :: xs.
Proof.
  induction s as [| c s (x & xs & IH)]; cbn.
  - eauto.
  - destruct (Ascii.eqb c sep); [eauto |]. rewrite IH. eauto.
Qed.

(** The first piece of a split has no separator in it, and the string is
    that piece, alone or followed by a separator and the rest. *)
Lemma split_first sep s :
  exists x xs,
    split sep s = x :: xs
    /\ (forall c, In c (list_ascii_of_string x) -> c <> sep)
    /\ (s = x \/ exists rest, s = (x ++ String sep rest)%string).
Proof.
  induction s as [| c s (x & xs & IH & Hfree & Hshape)]; cbn.
  - exists "", []. repeat split; [intros c [] | left; reflexivity].
  - destruct (Ascii.eqb c sep) eqn:Hc.
    + apply Ascii.eqb_eq in Hc. subst c.
      exists "", (split sep s). repeat split; [intros c [] |].
      right. exists s. reflexivity.
    + rewrite IH. exists (String c x), xs. repeat split.
      * intros c' [<- | Hin]; [| apply Hfree, Hin].
        intros ->. rewrite Ascii.eqb_refl in Hc. discriminate.
      * destruct Hshape as [-> | [rest ->]]; [left; reflexivity |].
        right. exists rest. reflexivity.
Qed.

(** X1. The estimator never throws.  When the simulation fails it logs the
    message up to its first semicolon (the whole message if it has none),
    then the fallback limit, and does nothing else. *)
Theorem estimateGasWithFallback_fails_quietly :
  forall env w tx h,
    (exists g, result (Dynamic.estimateGasWithFallback env w tx) h = Ok g)
    /\ (forall message,
           rpc_estimateGas env h tx = Throw message ->
           exists shown,
             events (Dynamic.estimateGasWithFallback env w tx) h
             = [EvEstimateGas tx (Throw message);
                EvLog Warning (MText shown);
                EvLog Info (MFallbackGasLimit 350000)]
             /\ (forall c, In c (list_ascii_of_string shown) -> c <> ";"%char)
             /\ (message = shown
                 \/ exists rest, message = (shown ++ String ";" rest)%string)).
Proof.
  intros env w tx h. split.
  - unfold result, Dynamic.estimateGasWithFallback, estimateGas, call, log, emit,
      try_catch, bind, ret.
    destruct (rpc_estimateGas env h tx); cbn; eauto.
  - intros message Hest.
    exists (before_semicolon message). split.
    + unfold events, Dynamic.estimateGasWithFallback, estimateGas, call, log, emit,
        try_catch, bind, ret.
      rewrite Hest. reflexivity.
    + unfold before_semicolon.
      destruct (split_first ";" message) as (x & xs & -> & Hfree & Hshape).
      split; assumption.
Qed.

Lemma estimateGasWithFallback_fails_quietly_witness :
  rpc_estimateGas Scenario.broke [] (Scenario.draft 20000000000000)
  = Throw "insufficient funds for gas * price + value; estimateGas failed"
  /\ exists shown,
       events (Dynamic.estimateGasWithFallback Scenario.broke Scenario.alice
                 (Scenario.draft 20000000000000)) []
       = [EvEstimateGas (Scenario.draft 20000000000000)
            (Throw "insufficient funds for gas * price + value; estimateGas failed");
          EvLog Warning (MText shown);
          EvLog Info (MFallbackGasLimit 350000)]
       /\ (forall c, In c (list_ascii_of_string shown) -> c <> ";"%char)
       /\ ("insufficient funds for gas * price + value; estimateGas failed" = shown
           \/ exists rest,
               "insufficient funds for gas * price + value; estimateGas failed"
               = (shown ++ String ";" rest)%string).
Proof.
  split; [reflexivity |].
  apply (proj2 (estimateGasWithFallback_fails_quietly Scenario.broke Scenario.alice
                  (Scenario.draft 20000000000000) [])).
  reflexivity.
Defined.

(** X2. The buffered limit is never below the estimate and never more than
    a fifth above it. *)
Theorem estimateGasWithFallback_buffer :
  forall env w tx h X,
    0 <= X ->
    rpc_estimateGas env h tx = Ok X ->
    exists g,
      result (Dynamic.estimateGasWithFallback env w tx) h = Ok g
      /\ X <= g /\ 5 * g <= 6 * X.
Proof.
  intros env w tx h X HX Hest.
  exists (X * 120 / 100). split.
  - unfold result, Dynamic.estimateGasWithFallback, estimateGas, call, log, emit,
      try_catch, bind, ret.
    rewrite Hest. cbn [fst]. f_equal.
    unfold bn_div, bn_mul. apply Z.quot_div_nonneg; lia.
  - pose proof (Z.mul_div_le (X * 120) 100 ltac:(lia)).
    pose proof (Z.mul_succ_div_gt (X * 120) 100 ltac:(lia)).
    split; [| lia].
    apply Z.div_le_lower_bound; lia.
Qed.

Lemma estimateGasWithFallback_buffer_witness :
  0 <= 200001
  /\ rpc_estimateGas Scenario.funded [] (Scenario.draft 20000000000000) = Ok 200001
  /\ exists g,
       result (Dynamic.estimateGasWithFallback Scenario.funded Scenario.alice
                 (Scenario.draft 20000000000000)) [] = Ok g
       /\ 200001 <= g /\ 5 * g <= 6 * 200001.
Proof.
  split; [lia |]. split; [reflexivity |].
  apply (estimateGasWithFallback_buffer Scenario.funded Scenario.alice
           (Scenario.draft 20000000000000) [] 200001).
  - lia.
  - reflexivity.
Defined.

(** X3. With a base fee that is not negative, the quote of the pricer is one
    a node accepts: the priority fee is positive and does not exceed the
    max fee.  This holds on every path, the two fallbacks included. *)
Theorem getDynamicGasPrice_quote_valid :
  forall env h,
    (forall b, rpc_getFeeData env h = Ok (Some b) -> 0 <= b) ->
    exists quote,
      result (Dynamic.getDynamicGasPrice env) h = Ok quote
      /\ 0 < quoteMaxPriorityFeePerGas quote <= quoteMaxFeePerGas quote.
Proof.
  intros env h Hbase. rewrite getDynamicGasPrice_result.
  eexists. split; [reflexivity |].
  destruct (rpc_getFeeData env h) as [[b |] | message]; cbn; try lia.
  specialize (Hbase b eq_refl). lia.
Qed.

Lemma getDynamicGasPrice_quote_valid_witness :
  (forall b, rpc_getFeeData Scenario.funded [] = Ok (Some b) -> 0 <= b)
  /\ exists quote,
       result (Dynamic.getDynamicGasPrice Scenario.funded) [] = Ok quote
       /\ 0 < quoteMaxPriorityFeePerGas quote <= quoteMaxFeePerGas quote.
Proof.
  assert (H : forall b, rpc_getFeeData Scenario.funded [] = Ok (Some b) -> 0 <= b).
  { intros b Hb. vm_compute in Hb. injection Hb as <-. lia. }
  split; [exact H |].
  exact (getDynamicGasPrice_quote_valid Scenario.funded [] H).
Defined.

(* ===================================================================== *)
(** ** More on the summary and the key file *)
(* ===================================================================== *)

(** X4. With at least one attempt counted, and fewer than 2^53 of them, the
    success rate is a number between 0 and 100, within 2^-45 of the
    percentage of successes: it is 100 when nothing failed and 0 when
    nothing succeeded.  The quotient and the product are those of
    doubles. *)
Theorem successRate_is_percentage :
  forall totalSuccess totalFail,
    0 <= totalSuccess -> 0 <= totalFail -> 0 < totalSuccess + totalFail ->
    totalSuccess + totalFail < 2 ^ 53 ->
    exists q,
      Common.successRate totalSuccess totalFail = Finite q
      /\ (0 <= q)%Q /\ (q <= 100)%Q
      /\ (Qabs (q - 100 * (inject_Z totalSuccess
                           / inject_Z (totalSuccess + totalFail)))
          <= 1 # 35184372088832)%Q
      /\ (totalFail = 0 -> (q == 100)%Q)
      /\ (totalSuccess = 0 -> (q == 0)%Q).
Proof.
  intros s f Hs Hf Hsum _.
  unfold Common.successRate, Js.div, Js.mul.
  destruct (s + f =? 0) eqn:Hzero; [apply Z.eqb_eq in Hzero; lia |].
  eexists. split; [reflexivity |].
  assert (Hpos : (inject_Z 0 < inject_Z (s + f))%Q)
    by (rewrite <- Zlt_Qlt; exact Hsum).
  change (inject_Z 0) with 0%Q in Hpos.
  assert (Hratio : (0 <= inject_Z s / inject_Z (s + f))%Q
                   /\ (inject_Z s / inject_Z (s + f) <= inject_Z 1)%Q).
  { split.
    - apply Qle_shift_div_l; [exact Hpos |].
      rewrite Qmult_0_l. change 0%Q with (inject_Z 0).
      rewrite <- Zle_Qle. exact Hs.
    - apply Qle_shift_div_r; [exact Hpos |].
      rewrite Qmult_1_l, <- Zle_Qle. lia. }
  destruct Hratio as [Hlow Hhigh].
  destruct (fl_between _ 1 1 Hlow Hhigh) as [Hq0 Hq1]; [lia | reflexivity |].
  pose proof (fl_near _ 1 1 Hlow Hhigh ltac:(lia) eq_refl) as Hnear1.
  unfold fmul, fdiv.
  assert (Hprod : (0 <= fl (inject_Z s / inject_Z (s + f)) * inject_Z 100)%Q
                  /\ (fl (inject_Z s / inject_Z (s + f)) * inject_Z 100
                      <= inject_Z 100)%Q).
  { split.
    - apply Qmult_le_0_compat; [exact Hq0 | discriminate].
    - setoid_replace (inject_Z 100) with (inject_Z 1 * inject_Z 100)%Q at 2
        by reflexivity.
      apply Qmult_le_compat_r; [exact Hq1 | discriminate]. }
  destruct Hprod as [Hp0 Hp1].
  destruct (fl_between _ 100 7 Hp0 Hp1) as [Hr0 Hr1]; [lia | reflexivity |].
  pose proof (fl_near _ 100 7 Hp0 Hp1 ltac:(lia) eq_refl) as Hnear2.
  split; [exact Hr0 |]. split; [exact Hr1 |]. split; [| split].
  - apply Qabs_Qle_condition in Hnear1. apply Qabs_Qle_condition in Hnear2.
    apply Qabs_Qle_condition.
    change (Z.to_pos (2 ^ (54 - 1))) with 9007199254740992%positive in Hnear1.
    change (Z.to_pos (2 ^ (54 - 7))) with 140737488355328%positive in Hnear2.
    change (inject_Z 100) with 100%Q in *.
    set (a := (inject_Z s / inject_Z (s + f))%Q) in *.
    set (A := fl a) in *. set (q := fl (A * 100)) in *.
    clearbody q A a. lra.
  - intros ->. rewrite Z.add_0_r.
    rewrite (fl_proper (inject_Z s / inject_Z s) 1).
    + reflexivity.
    + apply Qmult_inv_r. intros H. rewrite Z.add_0_r in Hpos.
      rewrite H in Hpos. discriminate Hpos.
  - intros ->. reflexivity.
Qed.

Lemma successRate_is_percentage_witness :
  0 <= 23 /\ 0 <= 137 /\ 0 < 23 + 137 /\ 23 + 137 < 2 ^ 53
  /\ exists q,
       Common.successRate 23 137 = Finite q
       /\ (0 <= q)%Q /\ (q <= 100)%Q
       /\ (Qabs (q - 100 * (inject_Z 23 / inject_Z (23 + 137)))
           <= 1 # 35184372088832)%Q
       /\ (137 = 0 -> (q == 100)%Q)
       /\ (23 = 0 -> (q == 0)%Q).
Proof.
  split; [lia |]. split; [lia |]. split; [lia |]. split; [reflexivity |].
  apply (successRate_is_percentage 23 137); [lia | lia | lia | reflexivity].
Defined.

(** 23 successes in 160 attempts: the double [23 / 160 * 100] lies just
    below 14.375, and the summary prints 14.37. *)
Example successRate_23_of_160 :
  toFixed2 (Common.successRate 23 137) = "14.37".
Proof. vm_compute. reflexivity. Qed.

(* ===================================================================== *)
(** ** More on the wallet runner *)
(* ===================================================================== *)

Section BadAmount.
Variable env : Env.
Variable config : Config.
Variable createSwap : Wallet -> Z -> Address -> M TxRequest.
Variable createSequentialSwap : Wallet -> Z -> Address -> M TxRequest.
Variable logTransactionDetails : TxRequest -> M unit.
Variable userConfig : UserConfig.
Variable message : string.

Hypothesis bad_amount :
  parseEther (Common.amountOrDefault config userConfig) = Throw message.

Lemma swapIteration_bad_amount wallet i c h :
  Common.swapIteration env config createSwap createSequentialSwap
                       logTransactionDetails wallet userConfig i c h
  = (Ok (mkCounters (successCount c) (failCount c + 1)),
     [EvLog Console MDivider;
      EvLog Info (MStartingSwap (i + 1) (numberOfSwaps userConfig));
      EvLog Error (MErrorInSwap (i + 1) message)]).
Proof.
  unfold Common.swapIteration, Common.swapAttempt.
  rewrite bad_amount.
  reflexivity.
Qed.

Lemma swapLoop_bad_amount wallet remaining :
  forall i c h,
    Common.swapLoop env config createSwap createSequentialSwap
                    logTransactionDetails wallet userConfig remaining i c h
    = (Ok (mkCounters (successCount c) (failCount c + Z.of_nat remaining)),
       failedCycles remaining i (numberOfSwaps userConfig) message).
Proof.
  induction remaining as [| k IH]; intros i c h.
  - cbn. unfold ret. do 2 f_equal. destruct c; cbn. f_equal. lia.
  - cbn [Common.swapLoop failedCycles]. unfold bind at 1.
    rewrite swapIteration_bad_amount, IH. cbn [successCount failCount].
    do 3 f_equal. lia.
Qed.

Lemma processWallet_bad_amount privateKey walletIndex h addr :
  wallet_of_key env privateKey = Ok addr ->
  Common.processWallet env config createSwap createSequentialSwap
                       logTransactionDetails privateKey walletIndex userConfig h
  = (Ok (mkCounters 0 (Z.max 0 (numberOfSwaps userConfig))),
     [EvLog Console (MWalletHeader addr (walletIndex + 1));
      EvLog Info (MStartingSwaps (walletIndex + 1))]
       ++ failedCycles (Z.to_nat (numberOfSwaps userConfig)) 0
                       (numberOfSwaps userConfig) message).
Proof.
  intros Hkey. unfold Common.processWallet. rewrite Hkey.
  unfold bind, lift, log, emit. cbn [app].
  rewrite swapLoop_bad_amount. cbn [successCount failCount app].
  do 3 f_equal. lia.
Qed.

End BadAmount.

Lemma failedCycles_only_logs remaining :
  forall i total message,
    Forall (fun e => exists level msg, e = EvLog level msg)
           (failedCycles remaining i total message).
Proof.
  induction remaining as [| k IH]; intros i total message; cbn.
  - constructor.
  - repeat (constructor; [eauto |]). apply IH.
Qed.

(** X6. An amount that does not parse is not fatal and costs nothing: every
    configured cycle fails with the parser's message, [failCount] ends at
    [numberOfSwaps], and the wallet's run consists of log lines only: no
    call to the network, no transaction, no pause. *)
Theorem processWallet_bad_amount_fails_every_cycle :
  forall env privateKey walletIndex userConfig h addr message,
    wallet_of_key env privateKey = Ok addr ->
    parseEther (Common.amountOrDefault Dynamic.config userConfig) = Throw message ->
    result (Dynamic.processWallet env privateKey walletIndex userConfig) h
    = Ok (mkCounters 0 (Z.max 0 (numberOfSwaps userConfig)))
    /\ events (Dynamic.processWallet env privateKey walletIndex userConfig) h
       = [EvLog Console (MWalletHeader addr (walletIndex + 1));
          EvLog Info (MStartingSwaps (walletIndex + 1))]
           ++ failedCycles (Z.to_nat (numberOfSwaps userConfig)) 0
                           (numberOfSwaps userConfig) message
    /\ Forall (fun e => exists level msg, e = EvLog level msg)
              (events (Dynamic.processWallet env privateKey walletIndex userConfig) h)
    /\ Static.processWallet env privateKey walletIndex userConfig h
       = Dynamic.processWallet env privateKey walletIndex userConfig h.
Proof.
  intros env privateKey walletIndex userConfig h addr message Hkey Hbad.
  unfold result, events, Dynamic.processWallet, Static.processWallet.
  rewrite (processWallet_bad_amount env Dynamic.config _ _ _ userConfig message Hbad
             privateKey walletIndex h addr Hkey).
  rewrite (processWallet_bad_amount env Static.config _ _ _ userConfig message Hbad
             privateKey walletIndex h addr Hkey).
  cbn [fst snd]. repeat split.
  repeat (constructor; [eauto |]). apply failedCycles_only_logs.
Qed.

Lemma processWallet_bad_amount_fails_every_cycle_witness :
  wallet_of_key Scenario.funded "key1" = Ok "key1"
  /\ parseEther (Common.amountOrDefault Dynamic.config
                   (mkUserConfig 2 (Some "0,5") true))
     = Throw "invalid decimal value"
  /\ result (Dynamic.processWallet Scenario.funded "key1" 0
               (mkUserConfig 2 (Some "0,5") true)) []
     = Ok (mkCounters 0 2).
Proof.
  split; [reflexivity |]. split; [reflexivity |].
  apply (processWallet_bad_amount_fails_every_cycle Scenario.funded "key1" 0
           (mkUserConfig 2 (Some "0,5") true) [] "key1" "invalid decimal value");
    reflexivity.
Defined.

(* ===================================================================== *)
(** ** The batch *)
(* ===================================================================== *)

Lemma dynamic_sequence_batch_silent env w amount recipient :
  observes batchUse (Dynamic.createSequentialSwap env w amount recipient)
           (fun _ o => o = []).
Proof.
  unfold Dynamic.createSequentialSwap. open_calls. run_sequence. all: reflexivity.
Qed.

Lemma static_sequence_batch_silent env w amount recipient :
  observes batchUse (Static.createSequentialSwap env w amount recipient)
           (fun _ o => o = []).
Proof.
  unfold Static.createSequentialSwap. open_calls. run_sequence. all: reflexivity.
Qed.

Lemma dynamic_createSwap_batch_silent env w amount recipient :
  observes batchUse (Dynamic.createSwap env w amount recipient) (fun _ o => o = []).
Proof.
  unfold Dynamic.createSwap, Dynamic.checkBalance. open_calls.
  run_sequence. all: reflexivity.
Qed.

Lemma static_createSwap_batch_silent env w amount recipient :
  observes batchUse (Static.createSwap env w amount recipient) (fun _ o => o = []).
Proof.
  unfold Static.createSwap, Static.checkBalance. open_calls.
  run_sequence. all: reflexivity.
Qed.

Lemma dynamic_details_batch_silent tx :
  observes batchUse (Dynamic.logTransactionDetails tx) (fun _ o => o = []).
Proof.
  unfold Dynamic.logTransactionDetails.
  destruct (gasLimit tx), (maxFeePerGas tx), (maxPriorityFeePerGas tx);
    obs_step; reflexivity.
Qed.

Lemma static_details_batch_silent tx :
  observes batchUse (Static.logTransactionDetails tx) (fun _ o => o = []).
Proof.
  unfold Static.logTransactionDetails.
  destruct (gasLimit tx), (maxFeePerGas tx), (maxPriorityFeePerGas tx);
    obs_step; reflexivity.
Qed.

Lemma totalOf_shift field results :
  forall acc,
    fold_left (fun sum (result : Counters) => sum + field result) results acc
    = acc + Common.totalOf field results.
Proof.
  unfold Common.totalOf.
  induction results as [| c results IH]; intros acc; cbn; [lia |].
  rewrite IH, (IH (field c)). lia.
Qed.

Lemma totalOf_all n results :
  Forall (fun c => total c = n) results ->
  Common.totalOf successCount results + Common.totalOf failCount results
  = n * Z.of_nat (List.length results).
Proof.
  induction 1 as [| c results Hc _ IH].
  - cbn. lia.
  - unfold Common.totalOf in *. cbn [fold_left List.length].
    rewrite !totalOf_shift. unfold Common.totalOf. unfold total in Hc. lia.
Qed.

Lemma acceptedKeys_length env keys :
  snd (acceptedKeys env keys) = None ->
  List.length (fst (acceptedKeys env keys)) = List.length keys.
Proof.
  induction keys as [| key keys IH]; cbn; [reflexivity |].
  destruct (wallet_of_key env key); [| discriminate].
  destruct (acceptedKeys env keys) as [addrs refusal]. cbn in *.
  intros H. now rewrite IH.
Qed.

Section Batch.
Variable env : Env.
Variable config : Config.
Variable createSwap : Wallet -> Z -> Address -> M TxRequest.
Variable createSequentialSwap : Wallet -> Z -> Address -> M TxRequest.
Variable logTransactionDetails : TxRequest -> M unit.
Variable userConfig : UserConfig.

Hypothesis createSwap_silent :
  forall w amount recipient,
    observes batchUse (createSwap w amount recipient) (fun _ o => o = []).
Hypothesis createSequentialSwap_silent :
  forall w amount recipient,
    observes batchUse (createSequentialSwap w amount recipient) (fun _ o => o = []).
Hypothesis details_silent :
  forall tx, observes batchUse (logTransactionDetails tx) (fun _ o => o = []).
Hypothesis swaps_counted : 0 <= numberOfSwaps userConfig.

Let attempt :=
  Common.swapAttempt env config createSwap createSequentialSwap
                     logTransactionDetails.
Let iteration :=
  Common.swapIteration env config createSwap createSequentialSwap
                       logTransactionDetails.
Let loop :=
  Common.swapLoop env config createSwap createSequentialSwap
                  logTransactionDetails.
Let process :=
  Common.processWallet env config createSwap createSequentialSwap
                       logTransactionDetails.
Let wallets :=
  Common.walletLoop env config createSwap createSequentialSwap
                    logTransactionDetails.

Ltac known_callee :=
  lazymatch goal with
  | |- observes _ (bind (createSwap _ _ _) _) _ =>
      apply observes_bind; eapply observes_cut;
      [apply createSwap_silent | intros [? | ?] ? ->]
  | |- observes _ (bind (createSequentialSwap _ _ _) _) _ =>
      apply observes_bind; eapply observes_cut;
      [apply createSequentialSwap_silent | intros [? | ?] ? ->]
  | |- observes _ (bind (logTransactionDetails _) _) _ =>
      apply observes_bind; eapply observes_cut;
      [apply details_silent | intros [? | ?] ? ->]
  end; cbv beta iota zeta.

Lemma attempt_batch_silent wallet i c :
  observes batchUse (attempt wallet userConfig i c) (fun _ o => o = []).
Proof.
  unfold attempt, Common.swapAttempt. open_calls.
  repeat first [known_callee | obs_step_any].
  all: reflexivity.
Qed.

Lemma iteration_batch_silent wallet i c :
  observes batchUse (iteration wallet userConfig i c) (fun _ o => o = []).
Proof.
  unfold iteration, Common.swapIteration, Common.randomDelay, random. open_calls.
  do 4 obs_step.
  apply observes_try_catch, observes_bind.
  eapply observes_cut; [apply attempt_batch_silent |].
  intros [c' | message] o ->; cbv beta iota; repeat obs_step; reflexivity.
Qed.

Lemma loop_batch_silent wallet remaining :
  forall i c, observes batchUse (loop wallet userConfig remaining i c)
                       (fun _ o => o = []).
Proof.
  induction remaining as [| k IH]; intros i c.
  - cbn. obs_step. reflexivity.
  - cbn [loop Common.swapLoop]. apply observes_bind.
    eapply observes_cut; [apply iteration_batch_silent |].
    intros [c' | message] o ->; cbv beta iota; [| reflexivity].
    eapply observes_cut; [apply IH |].
    intros r o ->. reflexivity.
Qed.

(** A wallet: its header, then counters for every configured swap; or
    nothing at all when the key is refused. *)
Lemma process_batch privateKey walletIndex :
  observes batchUse (process privateKey walletIndex userConfig)
           (fun r o =>
              match wallet_of_key env privateKey with
              | Ok addr =>
                  o = [WalletStarted addr (walletIndex + 1)]
                  /\ exists c, r = Ok c /\ total c = numberOfSwaps userConfig
              | Throw message => o = [] /\ r = Throw message
              end).
Proof.
  destruct (wallet_of_key env privateKey) as [addr | message] eqn:Hkey.
  - eapply observes_cut.
    + apply observes_both with
        (Q := fun _ o => o = [WalletStarted addr (walletIndex + 1)])
        (P := fun r => exists c, r = Ok c /\ total c = numberOfSwaps userConfig).
      * unfold process, Common.processWallet. open_calls. rewrite Hkey.
        do 6 obs_step.
        eapply observes_cut; [apply loop_batch_silent |].
        intros r o ->. reflexivity.
      * intros h. unfold process, total.
        eapply processWallet_counts; eassumption.
    + intros r o H. exact H.
  - unfold process, Common.processWallet. rewrite Hkey.
    repeat obs_step. split; reflexivity.
Qed.

Lemma wallets_batch privateKeys :
  forall i results,
    observes batchUse (wallets userConfig privateKeys i results)
             (fun r o =>
                o = startedWallets (fst (acceptedKeys env privateKeys)) i
                /\ match snd (acceptedKeys env privateKeys) with
                   | Some message => r = Throw message
                   | None =>
                       exists new,
                         r = Ok (results ++ new)
                         /\ List.length new = List.length privateKeys
                         /\ Forall (fun c => total c = numberOfSwaps userConfig) new
                   end).
Proof.
  induction privateKeys as [| key keys IH]; intros i results.
  - cbn. obs_step. split; [reflexivity |].
    exists []. rewrite app_nil_r. repeat split. constructor.
  - cbn [wallets Common.walletLoop acceptedKeys]. apply observes_bind.
    eapply observes_cut; [apply process_batch |].
    intros r o H.
    destruct (wallet_of_key env key) as [addr | message].
    + destruct H as [-> (c & -> & Hc)]. cbv beta iota.
      eapply observes_cut; [apply IH |].
      intros r o [-> Hrest]. cbv beta.
      destruct (acceptedKeys env keys) as [addrs refusal]. cbn [fst snd] in *.
      split; [reflexivity |].
      destruct refusal as [message |]; [exact Hrest |].
      destruct Hrest as (new & -> & Hlen & Hall).
      exists (c :: new). rewrite <- app_assoc. cbn [app List.length].
      repeat split; [now rewrite Hlen | constructor; assumption].
    + destruct H as [-> ->]. cbv beta iota. cbn [fst snd]. split; reflexivity.
Qed.

Lemma reportWallets_batch_silent results :
  forall index,
    observes batchUse (Common.reportWallets results index)
             (fun r o => r = Ok tt /\ o = []).
Proof.
  induction results as [| c results IH]; intros index.
  - cbn. obs_step. split; reflexivity.
  - cbn [Common.reportWallets]. open_calls. do 8 obs_step.
    eapply observes_cut; [apply IH |].
    intros r o [-> ->]. split; reflexivity.
Qed.

Lemma printSummary_batch results :
  observes batchUse (Common.printSummary results)
           (fun r o =>
              r = Ok tt
              /\ o = [TotalSuccess (Common.totalOf successCount results);
                      TotalFail (Common.totalOf failCount results);
                      RateLine (toFixed2
                                  (Common.successRate
                                     (Common.totalOf successCount results)
                                     (Common.totalOf failCount results))
                                  ++ "%")%string]).
Proof.
  unfold Common.printSummary. open_calls. do 6 obs_step.
  apply observes_bind.
  eapply observes_cut; [apply reportWallets_batch_silent |].
  intros r o [-> ->]. cbv beta iota zeta.
  repeat obs_step. split; reflexivity.
Qed.

(** The whole batch, for a configuration and a key file that were read. *)
Lemma main_batch content :
  read_config env = Ok userConfig ->
  read_keys env = Ok content ->
  observes batchUse
           (Common.main env config createSwap createSequentialSwap
                        logTransactionDetails)
           (fun r o =>
              r = Ok tt
              /\ exists tail,
                   o = startedWallets
                         (fst (acceptedKeys env (Common.loadKeys content))) 0
                         ++ tail
                   /\ match snd (acceptedKeys env (Common.loadKeys content)) with
                      | Some message => tail = [FatalLine message; Exited 1]
                      | None =>
                          exists s f,
                            tail = [TotalSuccess s; TotalFail f;
                                    RateLine (toFixed2 (Common.successRate s f)
                                                ++ "%")%string]
                            /\ s + f
                               = numberOfSwaps userConfig
                                 * Z.of_nat (List.length (Common.loadKeys content))
                      end).
Proof.
  intros Hconfig Hkeys.
  unfold Common.main. rewrite Hconfig, Hkeys. open_calls.
  apply observes_try_catch.
  do 10 obs_step.
  apply observes_bind.
  eapply observes_cut; [apply wallets_batch |].
  intros r o [-> Hr].
  destruct (snd (acceptedKeys env (Common.loadKeys content))) as [message |].
  - subst r. cbv beta iota. repeat obs_step.
    split; [reflexivity |]. eexists. split; [| reflexivity].
    cbn [app batchUse]. reflexivity.
  - destruct Hr as (new & -> & Hlen & Hall). cbv beta iota.
    eapply observes_cut; [apply printSummary_batch |].
    intros r o [-> ->]. split; [reflexivity |].
    eexists. split; [cbn [app batchUse]; reflexivity |].
    do 2 eexists. split; [reflexivity |].
    cbn [app]. rewrite <- Hlen. apply totalOf_all. exact Hall.
Qed.

End Batch.

(* ===================================================================== *)
(** ** Further properties of the two scripts *)
(* ===================================================================== *)

(** X7. The sequence is strictly one transaction at a time: each
    transaction is submitted, awaited until its receipt comes and followed
    by a pause of 2000 ms before the next one is submitted; when a
    submission is refused or a receipt does not come, nothing further is
    submitted.  At most five transactions are confirmed, and five in a run
    that completes. *)
Theorem sequential_swap_one_by_one :
  forall env w amount recipient h,
    (exists k,
        oneByOne k (flat_map stepUse
                      (events (Dynamic.createSequentialSwap env w amount recipient) h))
        /\ (k <= 5)%nat
        /\ (is_ok (result (Dynamic.createSequentialSwap env w amount recipient) h)
            = true -> k = 5%nat))
    /\ (exists k,
           oneByOne k (flat_map stepUse
                         (events (Static.createSequentialSwap env w amount recipient) h))
           /\ (k <= 5)%nat
           /\ (is_ok (result (Static.createSequentialSwap env w amount recipient) h)
               = true -> k = 5%nat)).
Proof.
  intros env w amount recipient h. split.
  - apply (dynamic_steps env w amount recipient h).
  - apply (static_steps env w amount recipient h).
Qed.

(** X8. A sequence that completes has submitted, in this order: the swap of
    [amount] to the router with [amount] as value; the approval of the
    router on the output token; the swap back of exactly the output-token
    balance read after the approval; the approval of the router on the
    wrapped token; the withdrawal of exactly the wrapped-token balance read
    after the second swap.  Approvals are unlimited, the recipient of both
    swaps is the one given, each swap expires 3600 s after the clock
    reading taken when it was built, and the minimum output is 0. *)
Theorem sequential_swap_plan :
  forall env w amount recipient h,
    (is_ok (result (Dynamic.createSequentialSwap env w amount recipient) h) = true ->
     exists t1 t2 u0 w0 u1 w1 u2 w2 w3 u4 w4,
       flat_map seqUse (events (Dynamic.createSequentialSwap env w amount recipient) h)
       = sequencePlan Dynamic.config recipient amount t1 t2 u0 w0 u1 w1 u2 w2 w3 u4 w4)
    /\ (is_ok (result (Static.createSequentialSwap env w amount recipient) h) = true ->
        exists t1 t2 u0 w0 u1 w1 u2 w2 w3 u4 w4,
          flat_map seqUse (events (Static.createSequentialSwap env w amount recipient) h)
          = sequencePlan Static.config recipient amount t1 t2 u0 w0 u1 w1 u2 w2 w3 u4 w4).
Proof.
  intros env w amount recipient h. split.
  - apply (dynamic_plan env w amount recipient h).
  - apply (static_plan env w amount recipient h).
Qed.

Lemma sequential_swap_plan_witness :
  is_ok (result (Dynamic.createSequentialSwap Scenario.funded Scenario.alice
                   20000000000000 "0xA11CE") []) = true
  /\ exists t1 t2 u0 w0 u1 w1 u2 w2 w3 u4 w4,
       flat_map seqUse (events (Dynamic.createSequentialSwap Scenario.funded
                                  Scenario.alice 20000000000000 "0xA11CE") [])
       = sequencePlan Dynamic.config "0xA11CE" 20000000000000
                      t1 t2 u0 w0 u1 w1 u2 w2 w3 u4 w4.
Proof.
  split; [reflexivity |].
  exact (proj1 (sequential_swap_plan Scenario.funded Scenario.alice
                  20000000000000 "0xA11CE" []) eq_refl).
Defined.

(** X9. In the dynamic script every request of the sequence is simulated
    first, without a gas limit, and then submitted with the limit derived
    from the answer of that very simulation (a fifth above the estimate, or
    350000 when it failed).  The static script simulates nothing and writes
    350000 into the first four requests and 100000 into the withdrawal. *)
Theorem sequential_swap_gas_limits :
  forall env w amount recipient h,
    (exists k,
        estimatedThenSent k
          (flat_map gasUse
             (events (Dynamic.createSequentialSwap env w amount recipient) h))
        /\ (k <= 5)%nat
        /\ (is_ok (result (Dynamic.createSequentialSwap env w amount recipient) h)
            = true -> k = 5%nat))
    /\ (exists k,
           map gasLimit
               (sent (events (Static.createSequentialSwap env w amount recipient) h))
           = firstn k staticGasLimits
           /\ (k <= 5)%nat
           /\ (is_ok (result (Static.createSequentialSwap env w amount recipient) h)
               = true -> k = 5%nat)).
Proof.
  intros env w amount recipient h. split.
  - apply (dynamic_gas env w amount recipient h).
  - apply (static_gas env w amount recipient h).
Qed.

(** X10. In the dynamic script a single swap is only built when the balance
    read by the guard covers the value plus the gas limit times the max fee
    that the request itself carries. *)
Theorem dynamic_createSwap_bounds_cost :
  forall env w V recipient h tx,
    result (Dynamic.createSwap env w V recipient) h = Ok tx ->
    exists B g f,
      balanceChecks (events (Dynamic.createSwap env w V recipient) h) = [B]
      /\ gasLimit tx = Some g /\ maxFeePerGas tx = Some f
      /\ value tx + g * f <= B.
Proof.
  intros env w V recipient h tx Htx.
  exact (dynamic_createSwap_guarded env w V recipient h tx Htx).
Qed.

Lemma dynamic_createSwap_bounds_cost_witness :
  result (Dynamic.createSwap Scenario.funded Scenario.alice 20000000000000 "0xA11CE") []
  = Ok (set_fees (set_gasLimit (Scenario.draft 20000000000000) 240001)
                 9000001 8000000)
  /\ exists B g f,
       balanceChecks (events (Dynamic.createSwap Scenario.funded Scenario.alice
                                20000000000000 "0xA11CE") []) = [B]
       /\ Some 240001 = Some g /\ Some 9000001 = Some f
       /\ 20000000000000 + g * f <= B.
Proof.
  split; [reflexivity |].
  apply (dynamic_createSwap_bounds_cost Scenario.funded Scenario.alice
           20000000000000 "0xA11CE" []
           (set_fees (set_gasLimit (Scenario.draft 20000000000000) 240001)
                     9000001 8000000)).
  reflexivity.
Defined.

(** X11. A single swap reads the nonce from the network right before it
    submits, and submits at most one transaction, carrying that nonce. *)
Theorem single_swap_fresh_nonce :
  forall env wallet userConfig i c h,
    sequentialSwap userConfig = false ->
    freshNonce (result (Dynamic.swapAttempt env wallet userConfig i c) h)
               (nonceUses (events (Dynamic.swapAttempt env wallet userConfig i c) h))
    /\ freshNonce (result (Static.swapAttempt env wallet userConfig i c) h)
                  (nonceUses (events (Static.swapAttempt env wallet userConfig i c) h)).
Proof.
  intros env wallet userConfig i c h Hsingle. split.
  - apply (single_swap_nonce env Dynamic.config (Dynamic.createSwap env)
             (Dynamic.createSequentialSwap env) Dynamic.logTransactionDetails
             (dynamic_createSwap_ready env) dynamic_details_logged
             wallet userConfig i c Hsingle h).
  - apply (single_swap_nonce env Static.config (Static.createSwap env)
             (Static.createSequentialSwap env) Static.logTransactionDetails
             (static_createSwap_ready env) static_details_logged
             wallet userConfig i c Hsingle h).
Qed.

Lemma single_swap_fresh_nonce_witness :
  sequentialSwap Scenario.singleThrice = false
  /\ freshNonce
       (result (Dynamic.swapAttempt Scenario.funded Scenario.alice
                  Scenario.singleThrice 0 (mkCounters 0 0)) [])
       (nonceUses (events (Dynamic.swapAttempt Scenario.funded Scenario.alice
                             Scenario.singleThrice 0 (mkCounters 0 0)) [])).
Proof.
  split; [reflexivity |].
  exact (proj1 (single_swap_fresh_nonce Scenario.funded Scenario.alice
                  Scenario.singleThrice 0 (mkCounters 0 0) [] eq_refl)).
Defined.

(** X12. A single swap that is counted at all was submitted once and
    awaited, and the status of its receipt decides the counter: 1 counts a
    success, anything else a failure. *)
Theorem single_swap_counted_by_receipt :
  forall env wallet userConfig i c h,
    sequentialSwap userConfig = false ->
    (forall c',
        result (Dynamic.swapAttempt env wallet userConfig i c) h = Ok c' ->
        exists hash status,
          flat_map stepUse (events (Dynamic.swapAttempt env wallet userConfig i c) h)
          = [Submitted (Ok hash); Awaited hash (Ok status)]
          /\ c' = if status =? 1
                  then mkCounters (successCount c + 1) (failCount c)
                  else mkCounters (successCount c) (failCount c + 1))
    /\ (forall c',
           result (Static.swapAttempt env wallet userConfig i c) h = Ok c' ->
           exists hash status,
             flat_map stepUse (events (Static.swapAttempt env wallet userConfig i c) h)
             = [Submitted (Ok hash); Awaited hash (Ok status)]
             /\ c' = if status =? 1
                     then mkCounters (successCount c + 1) (failCount c)
                     else mkCounters (successCount c) (failCount c + 1)).
Proof.
  intros env wallet userConfig i c h Hsingle. split.
  - apply (single_swap_receipt env Dynamic.config (Dynamic.createSwap env)
             (Dynamic.createSequentialSwap env) Dynamic.logTransactionDetails
             (dynamic_createSwap_ready env) dynamic_details_logged
             (dynamic_createSwap_sends_nothing env)
             wallet userConfig i c Hsingle h).
  - apply (single_swap_receipt env Static.config (Static.createSwap env)
             (Static.createSequentialSwap env) Static.logTransactionDetails
             (static_createSwap_ready env) static_details_logged
             (static_createSwap_sends_nothing env)
             wallet userConfig i c Hsingle h).
Qed.

Lemma single_swap_counted_by_receipt_witness :
  sequentialSwap Scenario.singleThrice = false
  /\ result (Dynamic.swapAttempt Scenario.funded Scenario.alice
               Scenario.singleThrice 0 (mkCounters 0 0)) [] = Ok (mkCounters 1 0)
  /\ exists hash status,
       flat_map stepUse (events (Dynamic.swapAttempt Scenario.funded Scenario.alice
                                   Scenario.singleThrice 0 (mkCounters 0 0)) [])
       = [Submitted (Ok hash); Awaited hash (Ok status)]
       /\ mkCounters 1 0 = if status =? 1 then mkCounters (0 + 1) 0
                           else mkCounters 0 (0 + 1).
Proof.
  split; [reflexivity |]. split; [reflexivity |].
  apply (proj1 (single_swap_counted_by_receipt Scenario.funded Scenario.alice
                  Scenario.singleThrice 0 (mkCounters 0 0) [] eq_refl)).
  reflexivity.
Defined.

(** A key file with a byte order mark, a no-break space and blank lines
    gives the two keys. *)
Example loadKeys_strips_unicode_space :
  Common.loadKeys MoreScenarios.twoKeys
  = [MoreScenarios.firstKey; MoreScenarios.secondKey].
Proof. vm_compute. reflexivity. Qed.

(** The batch of that key file, every swap submitted and mined: six
    successes, and a rate of 100.00%. *)
Example main_two_wallets_summary :
  batchUses (events (Dynamic.main MoreScenarios.twoWallets) [])
  = [WalletStarted MoreScenarios.firstAddress 1;
     WalletStarted MoreScenarios.secondAddress 2;
     TotalSuccess 6; TotalFail 0; RateLine "100.00%"].
Proof. vm_compute. reflexivity. Qed.

(** X13. When the configuration and the key file are read and every key is
    accepted, the batch starts the wallets in the order of the key file,
    numbered from 1, then prints the totals and the rate and does not exit
    with an error; the two totals add up to [numberOfSwaps] times the
    number of keys, which is taken to be below 2^53, where the counters are
    exact; the rate printed is that of the double quotient. *)
Theorem main_totals_count_every_swap :
  forall env h userConfig content,
    read_config env = Ok userConfig ->
    read_keys env = Ok content ->
    0 <= numberOfSwaps userConfig ->
    numberOfSwaps userConfig * Z.of_nat (List.length (Common.loadKeys content))
    < 2 ^ 53 ->
    snd (acceptedKeys env (Common.loadKeys content)) = None ->
    (result (Dynamic.main env) h = Ok tt
     /\ exists s f,
          batchUses (events (Dynamic.main env) h)
          = startedWallets (fst (acceptedKeys env (Common.loadKeys content))) 0
              ++ [TotalSuccess s; TotalFail f;
                  RateLine (toFixed2 (Common.successRate s f) ++ "%")%string]
          /\ s + f = numberOfSwaps userConfig
                     * Z.of_nat (List.length (Common.loadKeys content)))
    /\ (result (Static.main env) h = Ok tt
        /\ exists s f,
             batchUses (events (Static.main env) h)
             = startedWallets (fst (acceptedKeys env (Common.loadKeys content))) 0
                 ++ [TotalSuccess s; TotalFail f;
                     RateLine (toFixed2 (Common.successRate s f) ++ "%")%string]
             /\ s + f = numberOfSwaps userConfig
                        * Z.of_nat (List.length (Common.loadKeys content))).
Proof.
  intros env h userConfig content Hconfig Hkeys Hn _ Hall. split.
  - destruct (main_batch env Dynamic.config (Dynamic.createSwap env)
                (Dynamic.createSequentialSwap env) Dynamic.logTransactionDetails
                userConfig (dynamic_createSwap_batch_silent env)
                (dynamic_sequence_batch_silent env) dynamic_details_batch_silent
                Hn content Hconfig Hkeys h) as [Hr (tail & Ho & Htail)].
    rewrite Hall in Htail. destruct Htail as (s & f & -> & Hsum).
    split; [exact Hr |]. exists s, f. split; [exact Ho | exact Hsum].
  - destruct (main_batch env Static.config (Static.createSwap env)
                (Static.createSequentialSwap env) Static.logTransactionDetails
                userConfig (static_createSwap_batch_silent env)
                (static_sequence_batch_silent env) static_details_batch_silent
                Hn content Hconfig Hkeys h) as [Hr (tail & Ho & Htail)].
    rewrite Hall in Htail. destruct Htail as (s & f & -> & Hsum).
    split; [exact Hr |]. exists s, f. split; [exact Ho | exact Hsum].
Qed.

Lemma main_totals_count_every_swap_witness :
  read_config MoreScenarios.twoWallets = Ok Scenario.singleThrice
  /\ read_keys MoreScenarios.twoWallets = Ok MoreScenarios.twoKeys
  /\ 0 <= numberOfSwaps Scenario.singleThrice
  /\ numberOfSwaps Scenario.singleThrice
     * Z.of_nat (List.length (Common.loadKeys MoreScenarios.twoKeys)) < 2 ^ 53
  /\ snd (acceptedKeys MoreScenarios.twoWallets (Common.loadKeys MoreScenarios.twoKeys)) = None
  /\ exists s f,
       batchUses (events (Dynamic.main MoreScenarios.twoWallets) [])
       = startedWallets
           (fst (acceptedKeys MoreScenarios.twoWallets (Common.loadKeys MoreScenarios.twoKeys))) 0
           ++ [TotalSuccess s; TotalFail f;
               RateLine (toFixed2 (Common.successRate s f) ++ "%")%string]
       /\ s + f = 3 * Z.of_nat (List.length (Common.loadKeys MoreScenarios.twoKeys)).
Proof.
  split; [reflexivity |]. split; [reflexivity |]. split; [cbn; lia |].
  split; [reflexivity |]. split; [reflexivity |].
  refine (proj2 (proj1 (main_totals_count_every_swap MoreScenarios.twoWallets []
                          Scenario.singleThrice MoreScenarios.twoKeys _ _ _ _ _)));
    first [reflexivity | cbn; lia].
Defined.

(** X14. A key that is refused stops the batch: the wallets of the keys
    before it have run, in order, no later wallet is started, no summary is
    printed, and the process logs the refusal as fatal and exits with
    code 1. *)
Theorem main_stops_at_refused_key :
  forall env h userConfig content message,
    read_config env = Ok userConfig ->
    read_keys env = Ok content ->
    0 <= numberOfSwaps userConfig ->
    snd (acceptedKeys env (Common.loadKeys content)) = Some message ->
    (result (Dynamic.main env) h = Ok tt
     /\ batchUses (events (Dynamic.main env) h)
        = startedWallets (fst (acceptedKeys env (Common.loadKeys content))) 0
            ++ [FatalLine message; Exited 1])
    /\ (result (Static.main env) h = Ok tt
        /\ batchUses (events (Static.main env) h)
           = startedWallets (fst (acceptedKeys env (Common.loadKeys content))) 0
               ++ [FatalLine message; Exited 1]).
Proof.
  intros env h userConfig content message Hconfig Hkeys Hn Hrefused. split.
  - destruct (main_batch env Dynamic.config (Dynamic.createSwap env)
                (Dynamic.createSequentialSwap env) Dynamic.logTransactionDetails
                userConfig (dynamic_createSwap_batch_silent env)
                (dynamic_sequence_batch_silent env) dynamic_details_batch_silent
                Hn content Hconfig Hkeys h) as [Hr (tail & Ho & Htail)].
    rewrite Hrefused in Htail. subst tail. split; assumption.
  - destruct (main_batch env Static.config (Static.createSwap env)
                (Static.createSequentialSwap env) Static.logTransactionDetails
                userConfig (static_createSwap_batch_silent env)
                (static_sequence_batch_silent env) static_details_batch_silent
                Hn content Hconfig Hkeys h) as [Hr (tail & Ho & Htail)].
    rewrite Hrefused in Htail. subst tail. split; assumption.
Qed.

Lemma main_stops_at_refused_key_witness :
  read_config MoreScenarios.secondKeyBad = Ok Scenario.singleThrice
  /\ read_keys MoreScenarios.secondKeyBad = Ok MoreScenarios.shortSecondKey
  /\ 0 <= numberOfSwaps Scenario.singleThrice
  /\ snd (acceptedKeys MoreScenarios.secondKeyBad
            (Common.loadKeys MoreScenarios.shortSecondKey))
     = Some "invalid private key"
  /\ batchUses (events (Dynamic.main MoreScenarios.secondKeyBad) [])
     = [WalletStarted MoreScenarios.firstAddress 1;
        FatalLine "invalid private key"; Exited 1].
Proof.
  split; [reflexivity |]. split; [reflexivity |]. split; [cbn; lia |].
  split; [reflexivity |].
  refine (proj2 (proj1 (main_stops_at_refused_key MoreScenarios.secondKeyBad []
                          Scenario.singleThrice MoreScenarios.shortSecondKey
                          "invalid private key" _ _ _ _)));
    first [reflexivity | cbn; lia].
Defined.

(** X15. When the configuration or the key file cannot be read, the batch
    does nothing but log the error as fatal and exit with code 1: no wallet
    is built and the network is not called.  The key file is not read when
    the configuration already failed. *)
Theorem main_fatal_on_unreadable_input :
  forall env h message,
    (read_config env = Throw message
     \/ (exists userConfig, read_config env = Ok userConfig)
        /\ read_keys env = Throw message) ->
    Dynamic.main env h = (Ok tt, [EvLog Error (MFatal message); EvExit 1])
    /\ Static.main env h = (Ok tt, [EvLog Error (MFatal message); EvExit 1]).
Proof.
  intros env h message [Hconfig | [[userConfig Hconfig] Hkeys]];
    unfold Dynamic.main, Static.main, Common.main, try_catch, bind, lift;
    rewrite Hconfig; try rewrite Hkeys; split; reflexivity.
Qed.

Lemma main_fatal_on_unreadable_input_witness :
  (read_config (Scenario.nodeWithoutFees 0) = Throw "ENOENT"
   \/ (exists userConfig, read_config (Scenario.nodeWithoutFees 0) = Ok userConfig)
      /\ read_keys (Scenario.nodeWithoutFees 0) = Throw "ENOENT")
  /\ Dynamic.main (Scenario.nodeWithoutFees 0) []
     = (Ok tt, [EvLog Error (MFatal "ENOENT"); EvExit 1]).
Proof.
  assert (H : read_config (Scenario.nodeWithoutFees 0) = Throw "ENOENT"
              \/ (exists userConfig,
                     read_config (Scenario.nodeWithoutFees 0) = Ok userConfig)
                 /\ read_keys (Scenario.nodeWithoutFees 0) = Throw "ENOENT").
  { left. reflexivity. }
  split; [exact H |].
  exact (proj1 (main_fatal_on_unreadable_input (Scenario.nodeWithoutFees 0) []
                  "ENOENT" H)).
Defined.
